(** * financials.py: the league returns dashboard

    A shallow embedding of [financials.py], the one-page Streamlit script
    that loads per-league CSV files of running betting returns into the
    session store, plots them and summarises the best and the worst
    strategy of every league.

    The script is re-run from top to bottom on every interaction.  One run
    is modelled as a computation over a [world]: the session store
    ([st.session_state], a dictionary that survives the run) and the page
    (the elements the run has displayed so far).  An exception ends the run
    and keeps both as they were when it was raised. *)

From Stdlib Require Import ZArith QArith Ascii String DecimalString List Lia.
From stdpp Require Import base option gmap strings list fin_maps.

Local Open Scope Z_scope.


(** ** Exceptions and the two monads *)

(** The exceptions a run can end in.  [KeyErrorNotInIndex] is the
    [KeyError] pandas raises for a selection by a list of labels, and
    carries the labels that are not columns; [EmptyDataError] and
    [ParserError] are those of [pandas.errors]; [OtherError] stands for an
    exception of any other class. *)
Inductive exn : Type :=
| KeyError (key : string)
| KeyErrorNotInIndex (missing : list string)
| IndexError
| ValueError (msg : string)
| TypeError
| FileNotFoundError (path : string)
| EmptyDataError
| ParserError (msg : string)
| OtherError (name : string).

Inductive result (A : Type) : Type :=
| Returned (a : A)
| Raised (e : exn).
Arguments Returned {A} a.
Arguments Raised {A} e.

#[global] Instance result_ret : MRet result := fun A a => Returned a.
#[global] Instance result_bind : MBind result := fun A B f m =>
  match m with
  | Returned a => f a
  | Raised e => Raised e
  end.
Arguments result_ret {A} a /.
Arguments result_bind {A B} f !m /.

(** ** Python strings *)

Module Py.

(** [str.replace(old, new)] for a non-empty [old]: scan from the left, and at
    every position where [old] starts emit [new] and jump over the
    occurrence ([skip] counts the characters of it still to pass). *)
Fixpoint replace_skip (old new : string) (skip : nat) (s : string) : string :=
  match s with
  | EmptyString => EmptyString
  | String c s' =>
      match skip with
      | S k => replace_skip old new k s'
      | O =>
          if String.prefix old s
          then new +:+ replace_skip old new (String.length old - 1) s'
          else String c (replace_skip old new 0 s')
      end
  end.

(** With an empty [old], Python puts [new] before every character and at
    the end. *)
Fixpoint replace_empty (new s : string) : string :=
  match s with
  | EmptyString => new
  | String c s' => new +:+ String c (replace_empty new s')
  end.

Definition replace (old new s : string) : string :=
  match old with
  | EmptyString => replace_empty new s
  | String _ _ => replace_skip old new 0 s
  end.

(** [str.split(sep)]: [cur] is the segment being read. *)
Fixpoint split_skip (sep : string) (skip : nat) (cur s : string) : list string :=
  match s with
  | EmptyString => [cur]
  | String c s' =>
      match skip with
      | S k => split_skip sep k cur s'
      | O =>
          if String.prefix sep s
          then cur :: split_skip sep (String.length sep - 1) EmptyString s'
          else split_skip sep 0 (cur +:+ String c EmptyString) s'
      end
  end.

Definition split (sep s : string) : result (list string) :=
  match sep with
  | EmptyString => Raised (ValueError "empty separator")
  | String _ _ => Returned (split_skip sep 0 EmptyString s)
  end.

(** [l[-k]] for [k >= 1]: the element at [len(l) - k], when there are at
    least [k] elements. *)
Definition index_from_end {A} (l : list A) (k : nat) : result A :=
  if (length l <? k)%nat then Raised IndexError
  else match l !! (length l - k)%nat with
       | Some x => Returned x
       | None => Raised IndexError
       end.

(** An insertion-ordered [dict] with string keys: assigning to a key that
    is present keeps its position. *)
Fixpoint dict_set {V} (k : string) (v : V) (d : list (string * V)) : list (string * V) :=
  match d with
  | [] => [(k, v)]
  | (k', v') :: d' =>
      if String.eqb k k' then (k, v) :: d' else (k', v') :: dict_set k v d'
  end.

Fixpoint dict_get {V} (d : list (string * V)) (k : string) : option V :=
  match d with
  | [] => None
  | (k', v) :: d' => if String.eqb k k' then Some v else dict_get d' k
  end.

Definition dict_keys {V} (d : list (string * V)) : list string := map fst d.

(** [d[k]] *)
Definition dict_item {V} (d : list (string * V)) (k : string) : result V :=
  match dict_get d k with
  | Some v => Returned v
  | None => Raised (KeyError k)
  end.

End Py.

(** ** Configuration: [league_files], [strategy_colors], [label_dict],
       [column_name_map] *)

Definition league_files : list (string * string) :=
  [ ("Premier League", "england_premier-league-2023-2024_financial_returns.csv");
    ("Championship", "england_championship-2023-2024_financial_returns.csv");
    ("League Two", "england_league-two-2023-2024_financial_returns.csv");
    ("League One", "england_league-one-2023-2024_financial_returns.csv");
    ("Serie A (Italy)", "italy_serie-a-2023-2024_financial_returns.csv");
    ("La Liga (Spain)", "spain_laliga-2023-2024_financial_returns.csv");
    ("Liga Portugal", "portugal_liga-portugal-2023-2024_financial_returns.csv");
    ("Ligue 1 (France)", "france_ligue-1-2023-2024_financial_returns.csv");
    ("Ekstraklasa (Poland)", "poland_ekstraklasa-2023-2024_financial_returns.csv") ].

Definition strategy_colors : list (string * string) :=
  [ ("home_returns_running_total", "blue");
    ("draw_returns_running_total", "orange");
    ("away_returns_running_total", "green");
    ("first_choice_returns_running_total", "purple");
    ("second_choice_returns_running_total", "red");
    ("third_choice_returns_running_total", "brown");
    ("random_choice_1_running_balance", "magenta") ].

Definition label_dict : list (string * string) :=
  [ ("home_returns_running_total", "£10 bet on every home win");
    ("draw_returns_running_total", "£10 bet on every draw");
    ("away_returns_running_total", "£10 bet on every away win");
    ("first_choice_returns_running_total", "£10 on the favourite (lowest odds)");
    ("second_choice_returns_running_total", "£10 on second favourite");
    ("third_choice_returns_running_total", "£10 on Le Underdog (highest odds)");
    ("random_choice_1_running_balance", "£10 random pick simulation") ].

Definition column_name_map : list (string * string) :=
  [ ("home_returns_total", "£10 bet on every home win");
    ("draw_returns_total", "£10 bet on every draw");
    ("away_returns_total", "£10 bet on every away win");
    ("first_choice_returns_total", "£10 on the favourite (lowest odds)");
    ("second_choice_returns_total", "£10 on second favourite");
    ("third_choice_returns_total", "£10 on Le Underdog (highest odds)");
    ("random_choice_1_total", "£10 random pick simulation") ].

(** ** The season of a file (line 81)

    [file_path.split('-')[-2] + '-' +
     file_path.split('-')[-1].replace('_financial_returns.csv', '')] *)
Definition season_of (file_path : string) : result string :=
  parts ← Py.split "-" file_path;
  a ← Py.index_from_end parts 2;
  parts' ← Py.split "-" file_path;
  b ← Py.index_from_end parts' 1;
  mret (a +:+ "-" +:+ Py.replace "_financial_returns.csv" "" b).


(** ** Numbers

    The numbers of a frame are float64 values: a rational, the negative
    zero, the two infinities and NaN.  A rational stands for the float of
    that value (every float64 that is not one of the other four is a
    rational); an integer column is held as the floats of its values,
    which the script cannot tell from the integers as long as they are
    below 2^53 in size. *)

Inductive float64 : Type :=
| Finite (q : Q)
| NegZero
| PosInf
| NegInf
| NaN.

Definition num (z : Z) : float64 := Finite (inject_Z z).

Definition is_nan (x : float64) : bool :=
  match x with
  | NaN => true
  | _ => false
  end.

Definition is_finite (x : float64) : bool :=
  match x with
  | Finite _ | NegZero => true
  | _ => false
  end.

(** The value of a finite float. *)
Definition finite_value (x : float64) : Q :=
  match x with
  | Finite q => q
  | _ => 0%Q
  end.

Definition Qltb (x y : Q) : bool :=
  Qnum x * Z.pos (Qden y) <? Qnum y * Z.pos (Qden x).

(** [a < b] and [a <= b] on floats: every comparison with NaN is false,
    and the two zeros are equal. *)
Definition float_ltb (a b : float64) : bool :=
  match a, b with
  | NaN, _ | _, NaN => false
  | NegInf, NegInf => false
  | NegInf, _ => true
  | _, NegInf => false
  | PosInf, _ => false
  | _, PosInf => true
  | _, _ => Qltb (finite_value a) (finite_value b)
  end.

Definition float_leb (a b : float64) : bool :=
  match a, b with
  | NaN, _ | _, NaN => false
  | _, _ => negb (float_ltb b a)
  end.

(** ** Formatting a number: [f"{x:,.2f}"]

    Two decimals, rounded half to even on the exact value, the integer part
    in groups of three digits; the sign is that of the number, also when
    it rounds to zero. *)

Definition digits (n : Z) : string :=
  NilZero.string_of_uint (N.to_uint (Z.to_N n)).

(** Commas into the digits of the integer part, read from the right;
    [n] counts the digits since the last comma. *)
Fixpoint group_thousands (rev_digits : list ascii) (n : nat) : list ascii :=
  match rev_digits with
  | [] => []
  | c :: rest =>
      match n with
      | 3%nat => "," %char :: c :: group_thousands rest 1
      | _ => c :: group_thousands rest (S n)
      end
  end.

Definition with_commas (s : string) : string :=
  string_of_list_ascii
    (rev (group_thousands (rev (list_ascii_of_string s)) 0)).

(** The hundredths nearest to a non-negative [a / d], ties to even. *)
Definition round_half_even (a d : Z) : Z :=
  let fl := a / d in
  let rem := a mod d in
  if d <? 2 * rem then fl + 1
  else if 2 * rem =? d then (if Z.odd fl then fl + 1 else fl)
  else fl.

Definition format_2f (x : float64) : string :=
  match x with
  | NaN => "nan"
  | PosInf => "inf"
  | NegInf => "-inf"
  | NegZero => "-0.00"
  | Finite q =>
      let n := round_half_even (Z.abs (Qnum q) * 100) (Z.pos (Qden q)) in
      (if Qnum q <? 0 then "-" else "")
      +:+ with_commas (digits (n / 100)) +:+ "."
      +:+ (if n mod 100 <? 10 then "0" else "") +:+ digits (n mod 100)
  end.

(** ** Data frames

    A pandas frame: the length of its index and its columns in order, each
    column with the dtype [read_csv] inferred for it: numbers (float64,
    with NaN where the file has no value) or text (a text in every
    row). *)

Inductive column : Type :=
| NumCol (vals : list float64)
| StrCol (vals : list string).

Inductive cell : Type :=
| CNum (x : float64)
| CStr (s : string).

Record DataFrame : Type := {
  index_len : nat;
  data : list (string * column)
}.

Definition column_length (c : column) : nat :=
  match c with
  | NumCol vals => length vals
  | StrCol vals => length vals
  end.

Definition column_cell (c : column) (i : nat) : option cell :=
  match c with
  | NumCol vals => CNum <$> vals !! i
  | StrCol vals => CStr <$> vals !! i
  end.

(** Every column is as long as the index. *)
Definition well_formed (df : DataFrame) : Prop :=
  Forall (fun nc => column_length nc.2 = index_len df) (data df).

(** The names of the columns of a frame. *)
Definition column_names (df : DataFrame) : list string := Py.dict_keys (data df).

(** [df.insert(loc, name, value)] with a scalar string [value]; pandas
    refuses a name the frame already has and a position past the last
    column. *)
Definition df_insert (loc : nat) (name value : string) (df : DataFrame)
  : result DataFrame :=
  if existsb (String.eqb name) (map fst (data df))
  then Raised (ValueError ("cannot insert " +:+ name +:+ ", already exists"))
  else if (length (data df) <? loc)%nat
  then Raised IndexError
  else Returned {| index_len := index_len df;
                   data := take loc (data df)
                           ++ (name, StrCol (repeat value (index_len df)))
                           :: drop loc (data df) |}.

(** [df[col]] *)
Definition df_col (df : DataFrame) (col : string) : result column :=
  Py.dict_item (data df) col.

(** [series.iloc[-1]]: the last value of a column, a number or a text. *)
Definition iloc_last (c : column) : result cell :=
  match c with
  | NumCol vals => v ← Py.index_from_end vals 1; mret (CNum v)
  | StrCol vals => s ← Py.index_from_end vals 1; mret (CStr s)
  end.

(** [df.iloc[0][col]]: the first row must exist before the column is
    looked up in it. *)
Definition df_first_row_cell (df : DataFrame) (col : string) : result cell :=
  match index_len df with
  | O => Raised IndexError
  | S _ =>
      c ← df_col df col;
      match column_cell c 0 with
      | Some x => mret x
      | None => Raised IndexError
      end
  end.

(** [df[cols]] with a list of labels: pandas looks all of them up first and
    raises one [KeyError] for those that are not columns. *)
Definition missing_columns (df : DataFrame) (cols : list string) : list string :=
  List.filter (fun col => negb (existsb (String.eqb col) (column_names df))) cols.

Definition df_select (df : DataFrame) (cols : list string) : result (list column) :=
  match missing_columns df cols with
  | [] => mapM (df_col df) cols
  | missing => Raised (KeyErrorNotInIndex missing)
  end.

(** ** What a run displays *)

Record line_chart : Type := {
  lc_title : string * cell;
  lc_span_top : float64;
  lc_span_bottom : float64;
  lc_series : list (string * string * list float64);
  lc_xlim_right : Z
}.

Record bar_chart : Type := {
  bc_x : list string;
  bc_height : list cell;
  bc_color : list string;
  bc_ylabel : string;
  bc_title : string
}.

Record BestWorstRecord : Type := {
  league_name : string;
  best_return : cell;
  best_return_column : string;
  worst_return : cell;
  worst_return_column : string
}.

(** A row of the displayed summary table: the two returns as the texts
    lines 165 and 166 make of them.  The descriptions come from
    [Series.map(column_name_map)], which leaves a missing key without a
    value. *)
Record display_row : Type := {
  dr_league_name : string;
  dr_best_return : string;
  dr_best_return_column_desc : option string;
  dr_worst_return : string;
  dr_worst_return_column_desc : option string
}.

Inductive element : Type :=
| ETitle (text : string)
| EMarkdown (text : string)
| EWrite (text : string)
| EWarning (text : string)
| EInfo (text : string)
| ESuccess (text : string)
| ECaption (text : string)
| EFixtureHeading (league : string) (season : cell)
| ELineChart (fig : line_chart)
| EBarChart (fig : bar_chart)
| EDataframe (rows : list display_row)
| EStrategyKey (color description : string).

(** ** One run of the script *)

Record world : Type := {
  session_state : gmap string DataFrame;
  page : list element
}.

Definition M (A : Type) : Type := world -> world * result A.

#[global] Instance M_ret : MRet M := fun A a w => (w, Returned a).
#[global] Instance M_bind : MBind M := fun A B f m w =>
  match m w with
  | (w', Returned a) => f a w'
  | (w', Raised e) => (w', Raised e)
  end.
Arguments M_ret {A} a w /.
Arguments M_bind {A B} f m w /.

Definition lift {A} (r : result A) : M A := fun w => (w, r).

Definition emit (e : element) : M unit := fun w =>
  ({| session_state := session_state w; page := page w ++ [e] |}, Returned tt).

(** [key in st.session_state], [st.session_state[key]] and
    [st.session_state[key] = df] *)
Definition session_contains (key : string) : M bool := fun w =>
  (w, Returned (bool_decide (is_Some (session_state w !! key)))).

Definition session_item (key : string) : M DataFrame := fun w =>
  match session_state w !! key with
  | Some df => (w, Returned df)
  | None => (w, Raised (KeyError key))
  end.

Definition session_set (key : string) (df : DataFrame) : M unit := fun w =>
  ({| session_state := <[key := df]> (session_state w); page := page w |},
   Returned tt).

(** [for x in l: body] *)
Fixpoint for_each {A} (l : list A) (body : A -> M unit) : M unit :=
  match l with
  | [] => mret tt
  | x :: l' => body x;; for_each l' body
  end.

(** A loop that appends to a local list. *)
Fixpoint for_collect {A B} (l : list A) (acc : list B)
  (body : list B -> A -> M (list B)) : M (list B) :=
  match l with
  | [] => mret acc
  | x :: l' => acc' ← body acc x; for_collect l' acc' body
  end.

(** ** The widgets' outputs *)

Definition st_title (text : string) : M unit := emit (ETitle text).
Definition st_markdown (text : string) : M unit := emit (EMarkdown text).
Definition st_write (text : string) : M unit := emit (EWrite text).
Definition st_warning (text : string) : M unit := emit (EWarning text).
Definition st_info (text : string) : M unit := emit (EInfo text).
Definition st_success (text : string) : M unit := emit (ESuccess text).
Definition st_caption (text : string) : M unit := emit (ECaption text).

(** The three buttons; a run sees at most one of them pressed. *)
Inductive button : Type :=
| LoadData
| ViewPlots
| ViewBestWorst.

#[global] Instance button_eq_dec : EqDecision button.
Proof. solve_decision. Defined.

Definition st_button (clicked : option button) (b : button) : bool :=
  bool_decide (clicked = Some b).

(** ** Best and worst of a league (lines 145 to 155) *)

(** [col.replace('_running_total', '_total').replace('_running_balance', '_total')] *)
Definition total_name (col : string) : string :=
  Py.replace "_running_balance" "_total" (Py.replace "_running_total" "_total" col).

(** [df[col].iloc[-1]] *)
Definition final_value (df : DataFrame) (col : string) : result cell :=
  c ← df_col df col;
  iloc_last c.

(** The dict comprehension of line 145, over the columns still to visit. *)
Fixpoint final_values_from (df : DataFrame) (cols : list string)
  (acc : list (string * cell)) : result (list (string * cell)) :=
  match cols with
  | [] => mret acc
  | col :: cols' =>
      v ← final_value df col;
      final_values_from df cols' (Py.dict_set (total_name col) v acc)
  end.

Definition final_values (df : DataFrame) : result (list (string * cell)) :=
  final_values_from df (Py.dict_keys strategy_colors) [].

(** [a < b] and [a > b] on the values of a frame: numbers compare as
    floats, texts in the order of their characters, and a number does not
    compare with a text. *)
Definition py_lt (a b : cell) : result bool :=
  match a, b with
  | CNum x, CNum y => Returned (float_ltb x y)
  | CStr s, CStr t => Returned (String.ltb s t)
  | _, _ => Raised TypeError
  end.

Definition py_gt (a b : cell) : result bool := py_lt b a.

(** [max(seq, key=f)] and [min(seq, key=f)]: the running choice is replaced
    only by an element whose key compares strictly better ([>] for [max],
    [<] for [min]), so the first of several equal ones is kept, and so is a
    running NaN, against which every comparison is false.  The key
    [dict.get] gives no value for a missing key, and comparing that raises
    [TypeError]. *)
Fixpoint extreme_loop {A} (better : cell -> cell -> result bool)
  (key : A -> option cell) (cur : A) (curv : option cell) (l : list A)
  : result A :=
  match l with
  | [] => Returned cur
  | x :: l' =>
      match key x, curv with
      | Some v, Some m =>
          b ← better v m;
          if (b : bool)
          then extreme_loop better key x (Some v) l'
          else extreme_loop better key cur curv l'
      | _, _ => Raised TypeError
      end
  end.

Definition py_max {A} (key : A -> option cell) (l : list A) : result A :=
  match l with
  | [] => Raised (ValueError "max() arg is an empty sequence")
  | x :: l' => extreme_loop py_gt key x (key x) l'
  end.

Definition py_min {A} (key : A -> option cell) (l : list A) : result A :=
  match l with
  | [] => Raised (ValueError "min() arg is an empty sequence")
  | x :: l' => extreme_loop py_lt key x (key x) l'
  end.

(** The record one loaded league adds to [best_worst_records]. *)
Definition summarise (league : string) (df : DataFrame) : result BestWorstRecord :=
  fv ← final_values df;
  best_col ← py_max (Py.dict_get fv) (Py.dict_keys fv);
  worst_col ← py_min (Py.dict_get fv) (Py.dict_keys fv);
  best ← Py.dict_item fv best_col;
  worst ← Py.dict_item fv worst_col;
  mret {| league_name := league;
          best_return := best;
          best_return_column := best_col;
          worst_return := worst;
          worst_return_column := worst_col |}.

(** The colour of a bar (lines 173 and 198) and of a key entry (lines 184
    and 209):
    [strategy_colors.get(x.replace('_total', '_running_total'), 'grey')] *)
Definition bar_color (x : string) : string :=
  default "grey" (Py.dict_get strategy_colors (Py.replace "_total" "_running_total" x)).

(** [f"£{x:,.2f}"] (lines 165 and 166): a number with two decimals after
    the pound sign; the format code [f] is refused for a text. *)
Definition format_pounds (x : cell) : result string :=
  match x with
  | CNum v => Returned ("£" +:+ format_2f v)
  | CStr _ => Raised (ValueError "Unknown format code 'f' for object of type 'str'")
  end.

(** ** Charts of a league (lines 97 to 132) *)

(** A column as the chart takes it: its numbers.  A text column among the
    seven ends the plot in an exception before anything is drawn, given
    here as the [TypeError] of line 103, where the largest text meets the
    largest number of another column. *)
Definition numbers (c : column) : result (list float64) :=
  match c with
  | NumCol vals => Returned vals
  | StrCol _ => Raised TypeError
  end.

(** The seven columns of [df[cols_to_plot]] (line 103). *)
Definition num_cols (df : DataFrame) (cols : list string)
  : result (list (list float64)) :=
  selected ← df_select df cols;
  mapM numbers selected.

(** [.max()] and [.min()] of pandas: the largest and the smallest of the
    values that are not NaN, and NaN when there is none. *)
Definition maximum (l : list float64) : float64 :=
  foldl (fun m v => if is_nan m then v else if float_ltb m v then v else m) NaN l.

Definition minimum (l : list float64) : float64 :=
  foldl (fun m v => if is_nan m then v else if float_ltb v m then v else m) NaN l.

(** The lines of the chart (lines 108 and 109): [df[col]] in the colour
    [strategy_colors[col]]. *)
Fixpoint plot_series (df : DataFrame) (cols : list string)
  : result (list (string * string * list float64)) :=
  match cols with
  | [] => mret []
  | col :: cols' =>
      c ← df_col df col;
      vals ← numbers c;
      color ← Py.dict_item strategy_colors col;
      rest ← plot_series df cols';
      mret ((col, color, vals) :: rest)
  end.

Definition strategy_key_entry (col : string) : M unit :=
  color ← lift (Py.dict_item strategy_colors col);
  description ← lift (Py.dict_item label_dict col);
  emit (EStrategyKey color description).

Definition plot_league (league : string) (df : DataFrame) : M unit :=
  let cols_to_plot := Py.dict_keys strategy_colors in
  season ← lift (df_first_row_cell df "season");
  emit (EFixtureHeading league season);;
  values ← lift (num_cols df cols_to_plot);
  let ymax := maximum (map maximum values) in
  let ymin := minimum (map minimum values) in
  series ← lift (plot_series df cols_to_plot);
  title_season ← lift (df_first_row_cell df "season");
  emit (ELineChart {| lc_title := (league, title_season);
                      lc_span_top := ymax;
                      lc_span_bottom := ymin;
                      lc_series := series;
                      lc_xlim_right := Z.of_nat (index_len df) - 1 |});;
  st_markdown "---";;
  st_write "### Strategy Key:";;
  for_each cols_to_plot strategy_key_entry;;
  st_markdown "---".

(** ** The script *)

Definition session_key (league : string) : string := league +:+ "_df".

Section Script.

(** What [pd.read_csv] makes of each path (the frame of the file, or the
    exception it raises: [FileNotFoundError] without a file, an error of
    pandas for a file it cannot parse), the value of the multiselect, and
    the button pressed, if any. *)
Variable disk : string -> result DataFrame.
Variable selected_leagues : list string.
Variable clicked : option button.

Definition read_csv (file_path : string) : M DataFrame :=
  lift (disk file_path).

(** Lines 78 to 85. *)
Definition load_league (league : string) : M unit :=
  file_path ← lift (Py.dict_item league_files league);
  df ← read_csv file_path;
  season ← lift (season_of file_path);
  df ← lift (df_insert 0 "league_name" league df);
  df ← lift (df_insert 1 "season" season df);
  session_set (session_key league) df.

(** Lines 73 to 87. *)
Definition load_data : M unit :=
  match selected_leagues with
  | [] => st_warning "Please select at least one league."
  | _ :: _ =>
      st_info "✅ Scraped with intelligent imagination — fun, free, and powered by Selenium.";;
      for_each selected_leagues load_league;;
      st_success "✅ Data loaded! Now choose what you’d like to view."
  end.

(** Lines 94 to 132. *)
Definition plot_selected (league : string) : M unit :=
  let key_name := session_key league in
  present ← session_contains key_name;
  if (present : bool)
  then df ← session_item key_name; plot_league league df
  else mret tt.

Definition view_plots : M unit :=
  st_caption "✅ Visual test: Watching strategies rise, sink, or wobble around.";;
  for_each selected_leagues plot_selected.

(** Lines 141 to 155. *)
Definition summarise_selected (best_worst_records : list BestWorstRecord)
  (league : string) : M (list BestWorstRecord) :=
  let key_name := session_key league in
  present ← session_contains key_name;
  if (present : bool)
  then df ← session_item key_name;
       r ← lift (summarise league df);
       mret (best_worst_records ++ [r])
  else mret best_worst_records.

(** [summary_df[name]] for the frame [pd.DataFrame(best_worst_records)]:
    the frame of an empty list has no columns at all, the frame of a list
    of records has the records' fields. *)
Definition summary_column {A} (summary_df : list BestWorstRecord)
  (name : string) (field : BestWorstRecord -> A) : result (list A) :=
  match summary_df with
  | [] => Raised (KeyError name)
  | _ :: _ => Returned (map field summary_df)
  end.

(** The key under a bar chart (lines 182 to 192 and 207 to 217). *)
Definition summary_key : M unit :=
  st_write "### Strategy Key:";;
  for_each column_name_map
    (fun cd => emit (EStrategyKey (bar_color cd.1) cd.2));;
  st_markdown "---".

(** Lines 157 to 219, for [summary_df = pd.DataFrame(best_worst_records)]. *)
Definition show_summary (summary_df : list BestWorstRecord) : M unit :=
  best_cols ← lift (summary_column summary_df "best_return_column" best_return_column);
  let best_desc := map (Py.dict_get column_name_map) best_cols in
  worst_cols ← lift (summary_column summary_df "worst_return_column" worst_return_column);
  let worst_desc := map (Py.dict_get column_name_map) worst_cols in
  names ← lift (summary_column summary_df "league_name" league_name);
  bests ← lift (summary_column summary_df "best_return" best_return);
  worsts ← lift (summary_column summary_df "worst_return" worst_return);
  best_texts ← lift (mapM format_pounds bests);
  worst_texts ← lift (mapM format_pounds worsts);
  let summary_df_display :=
    zip_with (fun nb dw =>
                {| dr_league_name := nb.1.1;
                   dr_best_return := nb.1.2;
                   dr_best_return_column_desc := nb.2;
                   dr_worst_return := dw.1;
                   dr_worst_return_column_desc := dw.2 |})
             (zip (zip names best_texts) best_desc) (zip worst_texts worst_desc) in
  st_write "### Best & Worst Returns (From Current Loaded Leagues)";;
  emit (EDataframe summary_df_display);;
  st_write "### ✅ Best Return Per League";;
  emit (EBarChart {| bc_x := names;
                     bc_height := bests;
                     bc_color := map bar_color best_cols;
                     bc_ylabel := "Best Return (£)";
                     bc_title := "Best Strategy Return Per League (Selected Leagues)" |});;
  summary_key;;
  st_write "### ❌ Worst Return Per League";;
  emit (EBarChart {| bc_x := names;
                     bc_height := worsts;
                     bc_color := map bar_color worst_cols;
                     bc_ylabel := "Worst Return (£)";
                     bc_title := "Worst Strategy Return Per League (Selected Leagues)" |});;
  summary_key.

(** Lines 138 to 219. *)
Definition view_best_worst : M unit :=
  st_caption "✅ Crunch test: Let’s see who strutted and who stumbled, league by league.";;
  best_worst_records ← for_collect selected_leagues [] summarise_selected;
  show_summary best_worst_records.

Definition banner : M unit :=
  st_title "⚽ Football League Financial Returns Analysis";;
  st_markdown "
### 🎯 Welcome to the Data Playground — real results, no sugarcoating.  
We’ve scraped match data from a selection of leagues and feature-engineered it to calculate running season returns from a generous mix of intelligent, thought-provoking betting strategies:  
£10 on every home win, away win, draw, favourite (lowest odds), second favourite, Le Underdog (highest odds), and even a random pick.  
All crunched, all laid bare — showing how those choices would have fared over an entire season.
";;
  st_write "Select leagues and load data — then choose what to view.".

Definition closing : M unit :=
  st_markdown "**Play with it, spot the patterns — and see who really comes out on top. Definitely food for thought.**";;
  st_markdown "*Built by someone who’s been there, fallen, got up again, fallen once more — and now... drinking beers, crunching peanuts and numbers.* 🍻".

Definition script : M unit :=
  banner;;
  (if st_button clicked LoadData then load_data else mret tt);;
  (if st_button clicked ViewPlots then view_plots else mret tt);;
  (if st_button clicked ViewBestWorst then view_best_worst else mret tt);;
  closing.

End Script.

(** A run starts on an empty page with the session store the previous run
    left. *)
Record interaction : Type := {
  i_disk : string -> result DataFrame;
  i_selected : list string;
  i_clicked : option button
}.

Definition run (i : interaction) (store : gmap string DataFrame)
  : world * result unit :=
  script (i_disk i) (i_selected i) (i_clicked i)
         {| session_state := store; page := [] |}.

Definition session (runs : list interaction) : gmap string DataFrame :=
  foldl (fun store i => session_state (run i store).1) ∅ runs.

(** ** Notions the statements below use *)

(** The season as the specification words it: split on the hyphen, take the
    second-to-last and the last segment, strip the fixed suffix from the
    end of the last, and join the two with a hyphen. *)
Definition strip_suffix (suffix s : string) : string :=
  let n := (String.length s - String.length suffix)%nat in
  if bool_decide (String.length suffix <= String.length s)%nat
     && String.eqb (String.substring n (String.length suffix) s) suffix
  then String.substring 0 n s
  else s.

Definition season_by_words (file_path : string) : result string :=
  parts ← Py.split "-" file_path;
  match reverse parts with
  | last_segment :: second_to_last :: _ =>
      mret (second_to_last +:+ "-" +:+ strip_suffix "_financial_returns.csv" last_segment)
  | _ => Raised IndexError
  end.

(** The character [c] does not occur in [s]. *)
Fixpoint no_char (c : ascii) (s : string) : Prop :=
  match s with
  | EmptyString => True
  | String d s' => d <> c /\ no_char c s'
  end.

(** The selected leagues that have a data set in the store, each with its
    data set, in the order of the selection. *)
Definition loaded_datasets (selected : list string)
  (store : gmap string DataFrame) : list (string * DataFrame) :=
  omap (fun league => (fun df => (league, df)) <$> store !! session_key league)
       selected.

Definition is_loaded (store : gmap string DataFrame) (league : string) : bool :=
  bool_decide (is_Some (store !! session_key league)).

(** A data set as the loader leaves it: the league and the season in front
    of the columns of the file. *)
Definition tagged (league season : string) (df : DataFrame) : Prop :=
  exists rest,
    data df = ("league_name", StrCol (repeat league (index_len df)))
              :: ("season", StrCol (repeat season (index_len df)))
              :: rest.

Definition store_of_leagues (store : gmap string DataFrame) : Prop :=
  forall key df,
    store !! key = Some df ->
    exists league,
      league ∈ Py.dict_keys league_files
      /\ key = session_key league
      /\ tagged league "2023-2024" df.

(** [r] is the first element of [l] whose key [m] no other key beats:
    [le v m] for the key [v] of every element and [lt v m] for the keys of
    the elements before [r]. *)
Definition first_best {A} (le lt : float64 -> float64 -> Prop)
  (key : A -> option cell) (l : list A) (r : A) (m : float64) : Prop :=
  exists i : nat,
    l !! i = Some r
    /\ key r = Some (CNum m)
    /\ forall (j : nat) x v,
         l !! j = Some x -> key x = Some (CNum v) ->
         le v m /\ ((j < i)%nat -> lt v m).

(** The two kinds of values, and lists of values of one kind. *)
Definition is_num (c : cell) : bool :=
  match c with
  | CNum _ => true
  | CStr _ => false
  end.

Definition same_kind (vs : list cell) : bool :=
  forallb is_num vs || forallb (fun v => negb (is_num v)) vs.



(** The comprehension assigns the visited columns' last values one after
    the other. *)
Definition assign_totals (acc : list (string * cell)) (cvs : list (string * cell))
  : list (string * cell) :=
  foldl (fun d cv => Py.dict_set (total_name cv.1) cv.2 d) acc cvs.

(** A computation that keeps a property of the session store. *)
Definition preserves {A} (P : gmap string DataFrame -> Prop) (m : M A) : Prop :=
  forall w, P (session_state w) -> P (session_state (m w).1).

(** What a computation displays on an empty page. *)
Definition shown {A} (m : M A) : list element :=
  page (m {| session_state := ∅; page := [] |}).1.

(** A computation that only displays [es]. *)
Definition emits (m : M unit) (es : list element) : Prop :=
  forall w,
    m w = ({| session_state := session_state w; page := page w ++ es |},
           Returned tt).

(** A computation that leaves the session store alone. *)
Definition page_only {A} (m : M A) : Prop :=
  forall w, session_state (m w).1 = session_state w.

(** The charts and the tables of a page. *)
Definition bar_charts (p : list element) : list bar_chart :=
  omap (fun e => match e with EBarChart fig => Some fig | _ => None end) p.

Definition line_charts (p : list element) : list line_chart :=
  omap (fun e => match e with ELineChart fig => Some fig | _ => None end) p.

Definition dataframes (p : list element) : list (list display_row) :=
  omap (fun e => match e with EDataframe rows => Some rows | _ => None end) p.

(** The frame the loader stores for a league (lines 78 to 83): the file of
    the league, read, with the league and the season put in front. *)
Definition loaded_frame (disk : string -> result DataFrame) (league : string)
  : result DataFrame :=
  file_path ← Py.dict_item league_files league;
  df ← disk file_path;
  season ← season_of file_path;
  df ← df_insert 0 "league_name" league df;
  df_insert 1 "season" season df.

(** Assignments to the session store, one after the other. *)
Definition store_all (entries : list (string * DataFrame))
  (store : gmap string DataFrame) : gmap string DataFrame :=
  foldl (fun s kd => <[kd.1 := kd.2]> s) store entries.

(** The assignments a load loop over [selected] makes: one for each league,
    in order, up to the first whose frame cannot be built. *)
Fixpoint committed (disk : string -> result DataFrame) (selected : list string)
  : list (string * DataFrame) :=
  match selected with
  | [] => []
  | league :: rest =>
      match loaded_frame disk league with
      | Returned df => (session_key league, df) :: committed disk rest
      | Raised _ => []
      end
  end.

(** The row of the summary table that shows a record. *)
Definition display_of (r : BestWorstRecord) : result display_row :=
  best ← format_pounds (best_return r);
  worst ← format_pounds (worst_return r);
  mret {| dr_league_name := league_name r;
          dr_best_return := best;
          dr_best_return_column_desc :=
            Py.dict_get column_name_map (best_return_column r);
          dr_worst_return := worst;
          dr_worst_return_column_desc :=
            Py.dict_get column_name_map (worst_return_column r) |}.

(** An ordinary amount: a finite number below 2^53 in size, the range in
    which the floats hold every integer. *)
Definition ordinary (x : float64) : bool :=
  is_finite x
  && negb (Qltb (inject_Z (2 ^ 53)) (finite_value x))
  && negb (Qltb (finite_value x) (inject_Z (- 2 ^ 53))).

(** ** Sample data *)

(** A file of two rows with the seven strategy columns, which end in
    [finals]. *)
Definition columns_of (finals : list float64) : list (string * column) :=
  zip_with (fun col v => (col, NumCol [num 0; v]))
           (Py.dict_keys strategy_colors) finals.

Definition sample_columns (finals : list Z) : list (string * column) :=
  columns_of (map num finals).

Definition sample_df (finals : list Z) : DataFrame :=
  {| index_len := 2; data := sample_columns finals |}.

(** A disk with one file, that of the Premier League. *)
Definition sample_disk (finals : list Z) (file_path : string) : result DataFrame :=
  if String.eqb file_path "england_premier-league-2023-2024_financial_returns.csv"
  then Returned (sample_df finals)
  else Raised (FileNotFoundError file_path).

Definition sample_finals : list Z := [10; -5; 20; 0; 15; -20; 5].




(** The session after Load Data with the Premier League selected and the
    sample file on disk. *)
Definition sample_store (finals : list Z) : gmap string DataFrame :=
  session [ {| i_disk := sample_disk finals;
               i_selected := ["Premier League"];
               i_clicked := Some LoadData |} ].

Definition sample_world (finals : list Z) : world :=
  {| session_state := sample_store finals; page := [] |}.

(** * Properties *)

(** ** Dictionaries *)

Lemma dict_get_lookup {V} (d : list (string * V)) (i : nat) k v :
  NoDup (Py.dict_keys d) ->
  d !! i = Some (k, v) ->
  Py.dict_get d k = Some v.
Proof.
  revert i. induction d as [|[k' v'] d IH]; intros i Hnd Hi; [done|].
  apply NoDup_cons in Hnd as [Hk' Hnd]. simpl.
  destruct i as [|i]; simpl in Hi.
  - injection Hi as -> ->. by rewrite String.eqb_refl.
  - destruct (String.eqb_spec k k') as [->|_]; [|by eapply IH].
    exfalso. apply Hk'. apply list_elem_of_fmap. exists (k', v).
    split; [done|]. by eapply list_elem_of_lookup_2.
Qed.

Lemma dict_get_keys {V} (d : list (string * V)) k :
  k ∈ Py.dict_keys d -> is_Some (Py.dict_get d k).
Proof.
  induction d as [|[k' v'] d IH]; simpl; intros Hk.
  - by apply elem_of_nil in Hk.
  - destruct (String.eqb_spec k k') as [->|Hne]; [by eexists|].
    apply IH. apply elem_of_cons in Hk as [?|?]; [done|done].
Qed.

Lemma dict_get_Some_keys {V} (d : list (string * V)) k v :
  Py.dict_get d k = Some v -> k ∈ Py.dict_keys d.
Proof.
  induction d as [|[k' v'] d IH]; simpl; [done|].
  destruct (String.eqb_spec k k') as [->|Hne]; intros H.
  - apply elem_of_cons. by left.
  - apply elem_of_cons. right. by apply IH.
Qed.

(** ** The order of the numbers *)

Lemma Qltb_lt (x y : Q) : Qltb x y = true <-> (x < y)%Q.
Proof. unfold Qltb, Qlt. apply Z.ltb_lt. Qed.

Lemma Qltb_ge (x y : Q) : Qltb x y = false <-> (y <= x)%Q.
Proof. unfold Qltb, Qle. apply Z.ltb_ge. Qed.

Lemma float_ltb_irrefl (a : float64) : float_ltb a a = false.
Proof. destruct a; try done; apply Qltb_ge, Qle_refl. Qed.

Lemma float_ltb_not_nan (a b : float64) :
  float_ltb a b = true -> is_nan a = false /\ is_nan b = false.
Proof. by destruct a, b. Qed.

Lemma float_leb_not_nan (a b : float64) :
  float_leb a b = true -> is_nan a = false /\ is_nan b = false.
Proof. by destruct a, b. Qed.

Lemma float_leb_ltb (a b : float64) :
  is_nan a = false -> is_nan b = false -> float_leb a b = negb (float_ltb b a).
Proof. by destruct a, b. Qed.

Lemma float_ltb_asym (a b : float64) : float_ltb a b = true -> float_ltb b a = false.
Proof.
  destruct a, b; try done; cbn; rewrite Qltb_lt, Qltb_ge; apply Qlt_le_weak.
Qed.

Lemma float_ltb_leb (a b : float64) : float_ltb a b = true -> float_leb a b = true.
Proof.
  intros H. destruct (float_ltb_not_nan _ _ H) as [Ha Hb].
  rewrite float_leb_ltb by done. by rewrite (float_ltb_asym _ _ H).
Qed.

Lemma float_leb_refl (a : float64) : is_nan a = false -> float_leb a a = true.
Proof. intros Ha. rewrite float_leb_ltb by done. by rewrite float_ltb_irrefl. Qed.

Lemma float_le_lt_trans (a b c : float64) :
  float_leb a b = true -> float_ltb b c = true -> float_ltb a c = true.
Proof.
  destruct a, b, c; try done; cbn; rewrite ?negb_true_iff, ?Qltb_lt, ?Qltb_ge;
    apply Qle_lt_trans.
Qed.

Lemma float_lt_le_trans (a b c : float64) :
  float_ltb a b = true -> float_leb b c = true -> float_ltb a c = true.
Proof.
  destruct a, b, c; try done; cbn; rewrite ?negb_true_iff, ?Qltb_lt, ?Qltb_ge;
    apply Qlt_le_trans.
Qed.

Lemma float_leb_trans (a b c : float64) :
  float_leb a b = true -> float_leb b c = true -> float_leb a c = true.
Proof.
  destruct a, b, c; try done; cbn; rewrite ?negb_true_iff, ?Qltb_lt, ?Qltb_ge;
    intros H1 H2; eapply Qle_trans; eassumption.
Qed.

Lemma is_finite_not_nan (a : float64) : is_finite a = true -> is_nan a = false.
Proof. by destruct a. Qed.

(** ** [max] and [min] with a key *)

Lemma py_lt_same_kind (a b : cell) :
  is_num a = is_num b -> exists r, py_lt a b = Returned r.
Proof. destruct a, b; try done; by eexists. Qed.

Lemma py_lt_mixed (a b : cell) : is_num a <> is_num b -> py_lt a b = Raised TypeError.
Proof. by destruct a, b. Qed.

Section Extreme.

Context {A : Type}.
Variable better : cell -> cell -> result bool.
Variable key : A -> option cell.

(** The choice is one of the elements. *)
Lemma extreme_loop_elem (cur : A) (curv : option cell) (l : list A) (r : A) :
  extreme_loop better key cur curv l = Returned r -> r ∈ cur :: l.
Proof.
  revert cur curv. induction l as [|x l IH]; intros cur curv; cbn [extreme_loop].
  - intros [= ->]. apply elem_of_cons. by left.
  - destruct (key x) as [v|]; [|done]. destruct curv as [m|]; [|done].
    destruct (better v m) as [[]|e]; cbn [mbind result_bind]; [| |done].
    + intros H%IH. apply elem_of_cons. right. done.
    + intros H%IH. apply elem_of_cons in H as [->|H].
      * apply elem_of_cons. by left.
      * apply elem_of_cons. right. apply elem_of_cons. by right.
Qed.

Section Kinds.

Hypothesis better_same : forall v m,
  is_num v = is_num m -> exists b, better v m = Returned b.
Hypothesis better_mixed : forall v m,
  is_num v <> is_num m -> better v m = Raised TypeError.

(** Values of one kind, numbers or texts, are compared without an
    exception; the first value of the other kind ends the loop in
    [TypeError]. *)
Lemma extreme_loop_kinds (cur : A) (m : cell) (l : list A) (vs : list cell) :
  Forall2 (fun x v => key x = Some v) l vs ->
  if forallb (fun v => Bool.eqb (is_num v) (is_num m)) vs
  then exists r, extreme_loop better key cur (Some m) l = Returned r
  else extreme_loop better key cur (Some m) l = Raised TypeError.
Proof.
  intros H. revert cur m. induction H as [|x v l vs Hv _ IH]; intros cur m.
  - by eexists.
  - cbn [forallb extreme_loop]. rewrite Hv.
    destruct (Bool.eqb (is_num v) (is_num m)) eqn:Hk; cbn [andb].
    + apply Bool.eqb_prop in Hk.
      destruct (better_same v m Hk) as [b ->]. cbn [mbind result_bind].
      destruct b; [|apply IH].
      specialize (IH x v). by rewrite <- Hk.
    + rewrite better_mixed; [done|]. intros Heq.
      by rewrite Heq, Bool.eqb_reflx in Hk.
Qed.

End Kinds.

Section Order.

(** [worse m v]: the value [v] is strictly better than the running [m]. *)
Variable worse : float64 -> float64 -> bool.
Variables le lt : float64 -> float64 -> Prop.
Hypothesis better_num : forall v m, better (CNum v) (CNum m) = Returned (worse m v).
Hypothesis worse_lt : forall m v, worse m v = true <-> lt m v.
Hypothesis not_lt_le : forall v m,
  is_nan v = false -> is_nan m = false -> ~ lt m v -> le v m.
Hypothesis lt_le : forall v m, lt v m -> le v m.
Hypothesis le_lt_trans : forall a b c, le a b -> lt b c -> lt a c.
Hypothesis le_refl : forall a, is_nan a = false -> le a a.

Lemma extreme_loop_first_best (l p : list A) (cur : A) (m : float64) :
  is_nan m = false ->
  first_best le lt key p cur m ->
  Forall (fun x => exists v, key x = Some (CNum v) /\ is_nan v = false) l ->
  exists r m',
    extreme_loop better key cur (Some (CNum m)) l = Returned r
    /\ first_best le lt key (p ++ l) r m'.
Proof.
  revert p cur m. induction l as [|x l IH]; intros p cur m Hm Hp Hl.
  - exists cur, m. by rewrite app_nil_r.
  - apply Forall_cons in Hl as [(v & Hv & Hnan) Hl]. cbn [extreme_loop].
    rewrite Hv, better_num. cbn [mbind result_bind].
    destruct Hp as (i & Hi & Hcur & Hall).
    assert (Hip : (i < length p)%nat) by by eapply lookup_lt_Some.
    replace (p ++ x :: l) with ((p ++ [x]) ++ l) by by rewrite <- app_assoc.
    destruct (worse m v) eqn:Hb.
    + apply worse_lt in Hb. apply IH; [done| |done].
      exists (length p). split; [|split; [done|]].
      { rewrite lookup_app_r by lia. by rewrite Nat.sub_diag. }
      intros j y w Hj Hw.
      destruct (decide (j < length p)%nat) as [Hlt|Hge].
      * rewrite lookup_app_l in Hj by done.
        destruct (Hall j y w Hj Hw) as [Hle _].
        split; [|intros _]; [apply lt_le|]; by eapply le_lt_trans.
      * assert (j = length p) as ->.
        { apply lookup_lt_Some in Hj. rewrite length_app in Hj. simpl in Hj. lia. }
        rewrite lookup_app_r, Nat.sub_diag in Hj by lia.
        injection Hj as <-. rewrite Hv in Hw. injection Hw as <-.
        split; [by apply le_refl|lia].
    + assert (Hnb : ~ lt m v).
      { intros Hlt. apply worse_lt in Hlt. congruence. }
      apply IH; [done| |done].
      exists i. split; [|split; [done|]].
      { by rewrite lookup_app_l. }
      intros j y w Hj Hw.
      destruct (decide (j < length p)%nat) as [Hlt|Hge].
      * rewrite lookup_app_l in Hj by done. by eapply Hall.
      * assert (j = length p) as ->.
        { apply lookup_lt_Some in Hj. rewrite length_app in Hj. simpl in Hj. lia. }
        rewrite lookup_app_r, Nat.sub_diag in Hj by lia.
        injection Hj as <-. rewrite Hv in Hw. injection Hw as <-.
        split; [by apply not_lt_le|lia].
Qed.

Lemma extreme_first_best (x : A) (l : list A) :
  Forall (fun x => exists v, key x = Some (CNum v) /\ is_nan v = false) (x :: l) ->
  exists r m,
    extreme_loop better key x (key x) l = Returned r
    /\ first_best le lt key (x :: l) r m.
Proof.
  intros Hl. apply Forall_cons in Hl as [(v & Hv & Hnan) Hl]. rewrite Hv.
  apply (extreme_loop_first_best l [x] x v); [done| |done].
  exists 0%nat. split; [done|split; [done|]].
  intros [|j] y w Hj Hw; simpl in Hj; [|done].
  injection Hj as <-. rewrite Hv in Hw. injection Hw as <-.
  split; [by apply le_refl|lia].
Qed.

End Order.

End Extreme.

Lemma py_max_first_best {A} (key : A -> option cell) (l : list A) :
  l <> [] ->
  Forall (fun x => exists v, key x = Some (CNum v) /\ is_nan v = false) l ->
  exists r m,
    py_max key l = Returned r
    /\ first_best (fun v m => float_leb v m = true) (fun v m => float_ltb v m = true)
         key l r m.
Proof.
  intros Hne Hl. destruct l as [|x l]; [done|]. cbn [py_max].
  apply (extreme_first_best py_gt key float_ltb); try done.
  - intros v m Hv Hm Hlt. rewrite float_leb_ltb by done.
    by destruct (float_ltb m v).
  - intros v m. apply float_ltb_leb.
  - intros a b c. apply float_le_lt_trans.
  - apply float_leb_refl.
Qed.

Lemma py_min_first_best {A} (key : A -> option cell) (l : list A) :
  l <> [] ->
  Forall (fun x => exists v, key x = Some (CNum v) /\ is_nan v = false) l ->
  exists r m,
    py_min key l = Returned r
    /\ first_best (fun v m => float_leb m v = true) (fun v m => float_ltb m v = true)
         key l r m.
Proof.
  intros Hne Hl. destruct l as [|x l]; [done|]. cbn [py_min].
  apply (extreme_first_best py_lt key (fun m v => float_ltb v m)); try done.
  - intros v m Hv Hm Hlt. rewrite float_leb_ltb by done.
    by destruct (float_ltb v m).
  - intros v m. apply float_ltb_leb.
  - intros a b c H1 H2. by eapply float_lt_le_trans.
  - apply float_leb_refl.
Qed.

(** ** The final values of a data set *)

Lemma total_names :
  map total_name (Py.dict_keys strategy_colors) = Py.dict_keys column_name_map.
Proof. vm_compute. reflexivity. Qed.

Lemma column_names_NoDup : NoDup (Py.dict_keys column_name_map).
Proof. compute_done. Qed.

Lemma final_values_from_inv (df : DataFrame) (cols : list string)
  (acc fv : list (string * cell)) :
  final_values_from df cols acc = Returned fv ->
  exists vs : list cell,
    Forall2 (fun col v => final_value df col = Returned v) cols vs
    /\ fv = assign_totals acc (zip cols vs).
Proof.
  revert acc. induction cols as [|col cols IH]; intros acc; cbn [final_values_from].
  - intros [= <-]. exists []. by split; [constructor|].
  - destruct (final_value df col) as [v|e] eqn:Hv; [|discriminate].
    intros (vs & Hvs & ->)%IH. exists (v :: vs). by split; [constructor|].
Qed.

Lemma final_values_from_intro (df : DataFrame) (cols : list string)
  (acc : list (string * cell)) (vs : list cell) :
  Forall2 (fun col v => final_value df col = Returned v) cols vs ->
  final_values_from df cols acc = Returned (assign_totals acc (zip cols vs)).
Proof.
  intros H. revert acc. induction H as [|col v cols vs Hv _ IH]; intros acc.
  - reflexivity.
  - cbn [final_values_from]. rewrite Hv. apply IH.
Qed.

Lemma assign_totals_strategies (vs : list cell) :
  length vs = 7%nat ->
  assign_totals [] (zip (Py.dict_keys strategy_colors) vs)
  = zip (Py.dict_keys column_name_map) vs.
Proof.
  intros Hlen.
  do 7 (destruct vs as [|?v vs]; [discriminate|]).
  destruct vs; [|discriminate].
  vm_compute. reflexivity.
Qed.

Lemma final_values_inv (df : DataFrame) (fv : list (string * cell)) :
  final_values df = Returned fv ->
  exists vs : list cell,
    Forall2 (fun col v => final_value df col = Returned v)
            (Py.dict_keys strategy_colors) vs
    /\ fv = zip (Py.dict_keys column_name_map) vs.
Proof.
  intros (vs & Hvs & ->)%final_values_from_inv.
  exists vs. split; [done|]. apply assign_totals_strategies.
  by rewrite <- (Forall2_length _ _ _ Hvs).
Qed.

Lemma final_values_intro (df : DataFrame) (vs : list cell) :
  Forall2 (fun col v => final_value df col = Returned v)
          (Py.dict_keys strategy_colors) vs ->
  final_values df = Returned (zip (Py.dict_keys column_name_map) vs).
Proof.
  intros Hvs. unfold final_values.
  rewrite (final_values_from_intro _ _ _ _ Hvs). f_equal.
  apply assign_totals_strategies. by rewrite <- (Forall2_length _ _ _ Hvs).
Qed.

Lemma final_values_keys (df : DataFrame) (fv : list (string * cell)) :
  final_values df = Returned fv ->
  Py.dict_keys fv = Py.dict_keys column_name_map.
Proof.
  intros (vs & Hvs & ->)%final_values_inv.
  apply Forall2_length in Hvs. unfold Py.dict_keys at 1.
  rewrite fst_zip; [done|]. by rewrite <- Hvs.
Qed.

(** ** The record of a league *)

(** A dictionary with distinct keys, read by position. *)
Lemma dict_get_zip {V} (names : list string) (vs : list V) (j : nat) k v :
  NoDup names ->
  length names = length vs ->
  names !! j = Some k -> vs !! j = Some v ->
  Py.dict_get (zip names vs) k = Some v.
Proof.
  intros Hnd Hlen Hk Hv. apply (dict_get_lookup _ j).
  - unfold Py.dict_keys. rewrite fst_zip; [done|lia].
  - rewrite lookup_zip_with, Hk. simpl. by rewrite Hv.
Qed.

Lemma dict_keys_values {V} (names : list string) (vs : list V) :
  NoDup names ->
  length names = length vs ->
  Forall2 (fun k v => Py.dict_get (zip names vs) k = Some v) names vs.
Proof.
  intros Hnd Hlen. apply Forall2_same_length_lookup_2; [done|].
  intros i k v Hk Hv. by eapply dict_get_zip.
Qed.

(** The summariser on the dictionary of final values. *)
Lemma summarise_final_values (league : string) (df : DataFrame)
  (fv : list (string * cell)) :
  final_values df = Returned fv ->
  summarise league df
  = (best_col ← py_max (Py.dict_get fv) (Py.dict_keys fv);
     worst_col ← py_min (Py.dict_get fv) (Py.dict_keys fv);
     best ← Py.dict_item fv best_col;
     worst ← Py.dict_item fv worst_col;
     mret {| league_name := league;
             best_return := best;
             best_return_column := best_col;
             worst_return := worst;
             worst_return_column := worst_col |}).
Proof. intros Hfv. unfold summarise. by rewrite Hfv. Qed.

(** Every record names two of the seven totals and carries their final
    values. *)
Lemma summarise_inv (league : string) (df : DataFrame) (r : BestWorstRecord) :
  summarise league df = Returned r ->
  exists vs : list cell,
    Forall2 (fun col v => final_value df col = Returned v)
            (Py.dict_keys strategy_colors) vs
    /\ league_name r = league
    /\ best_return_column r ∈ Py.dict_keys column_name_map
    /\ worst_return_column r ∈ Py.dict_keys column_name_map
    /\ Py.dict_get (zip (Py.dict_keys column_name_map) vs) (best_return_column r)
       = Some (best_return r)
    /\ Py.dict_get (zip (Py.dict_keys column_name_map) vs) (worst_return_column r)
       = Some (worst_return r)
    /\ same_kind vs = true.
Proof.
  intros Hr. destruct (final_values df) as [fv|e] eqn:Hfv.
  2: { unfold summarise in Hr. by rewrite Hfv in Hr. }
  rewrite (summarise_final_values _ _ _ Hfv) in Hr.
  pose proof (final_values_keys _ _ Hfv) as Hkeys.
  apply final_values_inv in Hfv as (vs & Hvs & ->).
  rewrite Hkeys in Hr.
  set (fv := zip (Py.dict_keys column_name_map) vs) in *.
  destruct (py_max (Py.dict_get fv) (Py.dict_keys column_name_map))
    as [bc|e] eqn:Hmax; [|done].
  destruct (py_min (Py.dict_get fv) (Py.dict_keys column_name_map))
    as [wc|e] eqn:Hmin; [|done].
  cbn [mbind result_bind] in Hr. unfold Py.dict_item in Hr.
  destruct (Py.dict_get fv bc) as [b|] eqn:Hb; [|done].
  destruct (Py.dict_get fv wc) as [w|] eqn:Hw; [|done].
  injection Hr as <-.
  cbn [league_name best_return best_return_column worst_return worst_return_column].
  exists vs. split; [done|]. split; [done|].
  assert (Hlen : length (Py.dict_keys column_name_map) = length vs).
  { by rewrite <- (Forall2_length _ _ _ Hvs). }
  assert (Hseven : exists k0 ks v0 vs',
             Py.dict_keys column_name_map = k0 :: ks
             /\ vs = v0 :: vs'
             /\ Py.dict_get fv k0 = Some v0
             /\ Forall2 (fun k v => Py.dict_get fv k = Some v) ks vs').
  { pose proof (dict_keys_values _ vs column_names_NoDup Hlen) as Hall.
    fold fv in Hall. destruct vs as [|v0 vs']; [done|].
    destruct (Py.dict_keys column_name_map) as [|k0 ks] eqn:Hk; [done|].
    apply Forall2_cons in Hall as [H0 Hall]. by exists k0, ks, v0, vs'. }
  destruct Hseven as (k0 & ks & v0 & vs' & Hk & -> & H0 & Hall).
  rewrite Hk in Hmax, Hmin. cbn [py_max py_min] in Hmax, Hmin.
  rewrite H0 in Hmax, Hmin.
  split; [rewrite Hk; by eapply extreme_loop_elem|].
  split; [rewrite Hk; by eapply extreme_loop_elem|].
  split; [done|]. split; [done|].
  pose proof (extreme_loop_kinds py_gt (Py.dict_get fv)
                (fun v m H => py_lt_same_kind m v (eq_sym H))
                (fun v m H => py_lt_mixed m v (fun E => H (eq_sym E)))
                k0 v0 ks vs' Hall) as Hkinds.
  destruct (forallb (fun v => Bool.eqb (is_num v) (is_num v0)) vs') eqn:Hsame.
  2: { by rewrite Hkinds in Hmax. }
  clear -Hsame. unfold same_kind. cbn [forallb].
  destruct (is_num v0); cbn [negb andb orb].
  - assert (forallb is_num vs' = true) as ->; [|done].
    apply forallb_forall. intros v Hv.
    eapply forallb_forall in Hsame; [|exact Hv]. by destruct (is_num v).
  - assert (forallb (fun v => negb (is_num v)) vs' = true) as ->; [|done].
    apply forallb_forall. intros v Hv.
    eapply forallb_forall in Hsame; [|exact Hv]. by destruct (is_num v).
Qed.

Lemma forallb_pointwise {A} (f g : A -> bool) (l : list A) :
  (forall x, f x = g x) -> forallb f l = forallb g l.
Proof. intros H. induction l as [|x l IH]; simpl; [done|]. by rewrite H, IH. Qed.

(** Seven values of one kind are summarised; a text among numbers ends
    the summary in the [TypeError] of [max]. *)
Lemma summarise_kinds (league : string) (df : DataFrame) (vs : list cell) :
  Forall2 (fun col v => final_value df col = Returned v)
          (Py.dict_keys strategy_colors) vs ->
  if same_kind vs
  then exists r, summarise league df = Returned r
  else summarise league df = Raised TypeError.
Proof.
  intros Hvs.
  assert (Hlen : length (Py.dict_keys column_name_map) = length vs).
  { by rewrite <- (Forall2_length _ _ _ Hvs). }
  pose proof (final_values_intro _ _ Hvs) as Hfv.
  rewrite (summarise_final_values _ _ _ Hfv).
  pose proof (final_values_keys _ _ Hfv) as ->.
  set (fv := zip (Py.dict_keys column_name_map) vs) in *.
  pose proof (dict_keys_values _ vs column_names_NoDup Hlen) as Hall.
  fold fv in Hall. destruct vs as [|v0 vs']; [done|].
  destruct (Py.dict_keys column_name_map) as [|k0 ks] eqn:Hk; [done|].
  apply Forall2_cons in Hall as [H0 Hall].
  cbn [py_max py_min]. rewrite H0.
  pose proof (extreme_loop_kinds py_gt (Py.dict_get fv)
                (fun v m H => py_lt_same_kind m v (eq_sym H))
                (fun v m H => py_lt_mixed m v (fun E => H (eq_sym E)))
                k0 v0 ks vs' Hall) as Hmax.
  pose proof (extreme_loop_kinds py_lt (Py.dict_get fv)
                py_lt_same_kind py_lt_mixed k0 v0 ks vs' Hall) as Hmin.
  assert (Hsame : same_kind (v0 :: vs')
                  = forallb (fun v => Bool.eqb (is_num v) (is_num v0)) vs').
  { clear. unfold same_kind. cbn [forallb].
    destruct (is_num v0); cbn [negb andb orb].
    - rewrite orb_false_r. apply forallb_pointwise. intros v. by destruct (is_num v).
    - apply forallb_pointwise. intros v. by destruct (is_num v). }
  rewrite Hsame.
  destruct (forallb (fun v => Bool.eqb (is_num v) (is_num v0)) vs').
  - destruct Hmax as [bc Hmax]. destruct Hmin as [wc Hmin].
    rewrite Hmax, Hmin. cbn [mbind result_bind].
    assert (Hin : forall k, extreme_loop py_gt (Py.dict_get fv) k0 (Some v0) ks
                            = Returned k
                            \/ extreme_loop py_lt (Py.dict_get fv) k0 (Some v0) ks
                               = Returned k ->
                            exists v, Py.dict_item fv k = Returned v).
    { intros k Hret.
      assert (k ∈ k0 :: ks) as Hin.
      { destruct Hret as [H|H]; by apply extreme_loop_elem in H. }
      destruct (dict_get_keys fv k) as [v Hv].
      { unfold Py.dict_keys, fv. rewrite fst_zip; [done|]. simpl in Hlen |- *. lia. }
      exists v. unfold Py.dict_item. by rewrite Hv. }
    destruct (Hin bc (or_introl Hmax)) as [b ->].
    destruct (Hin wc (or_intror Hmin)) as [w ->].
    cbn [mbind result_bind]. by eexists.
  - by rewrite Hmax.
Qed.

(** With distinct names, the first best key of a dictionary of numbers is
    read off the list of its values. *)
Lemma first_best_zip (le lt : float64 -> float64 -> Prop) (names : list string)
  (vs : list float64) (bc : string) (b : float64) :
  NoDup names ->
  length names = length vs ->
  first_best le lt (Py.dict_get (zip names (CNum <$> vs))) names bc b ->
  exists i : nat,
    names !! i = Some bc
    /\ vs !! i = Some b
    /\ forall (j : nat) v, vs !! j = Some v -> le v b /\ ((j < i)%nat -> lt v b).
Proof.
  intros Hnd Hlen (i & Hi & Hb & Hall).
  assert (Hget : forall (j : nat) k v,
             names !! j = Some k -> vs !! j = Some v ->
             Py.dict_get (zip names (CNum <$> vs)) k = Some (CNum v)).
  { intros j k v Hk Hv. apply (dict_get_zip _ _ j); try done.
    - by rewrite length_fmap.
    - by rewrite list_lookup_fmap, Hv. }
  exists i. split; [done|]. split.
  - destruct (vs !! i) as [v|] eqn:Hv.
    + rewrite (Hget i bc v Hi Hv) in Hb. by injection Hb as ->.
    + apply lookup_ge_None in Hv. apply lookup_lt_Some in Hi. lia.
  - intros j v Hv.
    destruct (names !! j) as [k|] eqn:Hk.
    + eapply Hall; [exact Hk|]. by eapply Hget.
    + apply lookup_ge_None in Hk. apply lookup_lt_Some in Hv. lia.
Qed.

(** The record of a league whose seven final values are numbers, none of
    them NaN, read off these values in the order of [strategy_colors]. *)
Lemma summarise_numbers (league : string) (df : DataFrame) (finals : list float64) :
  Forall2 (fun col v => final_value df col = Returned (CNum v))
          (Py.dict_keys strategy_colors) finals ->
  Forall (fun v => is_nan v = false) finals ->
  exists (r : BestWorstRecord) (best worst : float64) (i k : nat),
    summarise league df = Returned r
    /\ league_name r = league
    /\ best_return r = CNum best
    /\ worst_return r = CNum worst
    /\ Py.dict_keys column_name_map !! i = Some (best_return_column r)
    /\ finals !! i = Some best
    /\ (forall (j : nat) v, finals !! j = Some v ->
          float_leb v best = true /\ ((j < i)%nat -> float_ltb v best = true))
    /\ Py.dict_keys column_name_map !! k = Some (worst_return_column r)
    /\ finals !! k = Some worst
    /\ (forall (j : nat) v, finals !! j = Some v ->
          float_leb worst v = true /\ ((j < k)%nat -> float_ltb worst v = true)).
Proof.
  intros Hfinals Hnan.
  assert (Hvs : Forall2 (fun col v => final_value df col = Returned v)
                        (Py.dict_keys strategy_colors) (CNum <$> finals)).
  { by apply Forall2_fmap_r. }
  assert (Hlen : length (Py.dict_keys column_name_map) = length finals).
  { by rewrite <- (Forall2_length _ _ _ Hfinals). }
  pose proof (final_values_intro _ _ Hvs) as Hfv.
  rewrite (summarise_final_values _ _ _ Hfv).
  pose proof (final_values_keys _ _ Hfv) as ->.
  set (names := Py.dict_keys column_name_map) in *.
  set (fv := zip names (CNum <$> finals)) in *.
  assert (Hne : names <> []) by done.
  assert (Hall : Forall (fun x => exists v, Py.dict_get fv x = Some (CNum v)
                                            /\ is_nan v = false) names).
  { apply Forall_lookup. intros j x Hx.
    destruct (finals !! j) as [v|] eqn:Hv.
    - exists v. split.
      + apply (dict_get_zip _ _ j); try done.
        * apply column_names_NoDup.
        * by rewrite length_fmap.
        * by rewrite list_lookup_fmap, Hv.
      + by eapply Forall_lookup_1 in Hnan.
    - apply lookup_ge_None in Hv. apply lookup_lt_Some in Hx. lia. }
  destruct (py_max_first_best _ _ Hne Hall) as (bc & b & -> & Hb).
  destruct (py_min_first_best _ _ Hne Hall) as (wc & w & -> & Hw).
  cbn [mbind result_bind]. unfold Py.dict_item.
  pose proof Hb as (? & _ & -> & _). pose proof Hw as (? & _ & -> & _).
  cbn [mbind result_bind mret result_ret].
  apply first_best_zip in Hb as (i & Hi & Hbi & Hbest);
    [|apply column_names_NoDup|done].
  apply first_best_zip in Hw as (k & Hk & Hwk & Hworst);
    [|apply column_names_NoDup|done].
  eexists _, b, w, i, k. split; [reflexivity|]. do 8 (split; [done|]). done.
Qed.

(** ** Reading the last row *)

Lemma dict_get_elem {V} (d : list (string * V)) k v :
  Py.dict_get d k = Some v -> (k, v) ∈ d.
Proof.
  induction d as [|[k' v'] d IH]; simpl; [done|].
  destruct (String.eqb_spec k k') as [->|Hne].
  - intros [= ->]. apply elem_of_cons. by left.
  - intros H. apply elem_of_cons. right. by apply IH.
Qed.

Lemma df_col_length (df : DataFrame) (col : string) (c : column) :
  well_formed df ->
  df_col df col = Returned c ->
  column_length c = index_len df.
Proof.
  intros Hwf. unfold df_col, Py.dict_item.
  destruct (Py.dict_get (data df) col) as [c'|] eqn:Hget; [|done].
  intros [= <-]. apply dict_get_elem in Hget.
  unfold well_formed in Hwf.
  eapply Forall_forall in Hwf; [|exact Hget]. done.
Qed.

Lemma index_from_end_last {A} (l : list A) (v : A) :
  l !! (length l - 1)%nat = Some v -> Py.index_from_end l 1 = Returned v.
Proof.
  intros Hv. unfold Py.index_from_end.
  destruct (Nat.ltb_spec (length l) 1) as [Hlt|_]; [|by rewrite Hv].
  apply lookup_lt_Some in Hv. lia.
Qed.


Lemma Forall2_functional {A B} (P : A -> B -> Prop) (l : list A) (k1 k2 : list B) :
  (forall x y1 y2, P x y1 -> P x y2 -> y1 = y2) ->
  Forall2 P l k1 -> Forall2 P l k2 -> k1 = k2.
Proof.
  intros Hfun H1. revert k2. induction H1 as [|x y l k1 Hxy _ IH]; intros k2 H2.
  - by apply Forall2_nil_inv_l in H2.
  - apply Forall2_cons_inv_l in H2 as (y2 & k2' & Hxy2 & H2 & ->).
    f_equal; [by eapply Hfun|by apply IH].
Qed.


(** ** The claims *)










(** C10.  The renaming of the seven running columns is injective, its
    image is the key set of [column_name_map] (in the same order), so the
    dictionary of final values has exactly these seven keys, and the best
    and the worst column of every record have a description. *)
Theorem total_names_are_described :
  (forall a b : string,
      a ∈ Py.dict_keys strategy_colors ->
      b ∈ Py.dict_keys strategy_colors ->
      total_name a = total_name b -> a = b)
  /\ map total_name (Py.dict_keys strategy_colors) = Py.dict_keys column_name_map
  /\ (forall (df : DataFrame) (fv : list (string * cell)),
        final_values df = Returned fv ->
        length fv = 7%nat /\ Py.dict_keys fv = Py.dict_keys column_name_map)
  /\ (forall (league : string) (df : DataFrame) (r : BestWorstRecord),
        summarise league df = Returned r ->
        is_Some (Py.dict_get column_name_map (best_return_column r))
        /\ is_Some (Py.dict_get column_name_map (worst_return_column r))).
Proof.
  split; [|split; [|split]].
  - intros a b Ha Hb Hab.
    assert (Hinj : forall names : list string,
               NoDup (map total_name names) ->
               forall a b, a ∈ names -> b ∈ names ->
                           total_name a = total_name b -> a = b).
    { clear. intros names Hnd a b [i Hi]%list_elem_of_lookup_1 [j Hj]%list_elem_of_lookup_1 Hab.
      assert (i = j) as ->.
      { eapply NoDup_lookup; [exact Hnd| |].
        - by rewrite list_lookup_fmap, Hi.
        - by rewrite list_lookup_fmap, Hj, Hab. }
      congruence. }
    apply (Hinj (Py.dict_keys strategy_colors)); try done.
    rewrite total_names. apply column_names_NoDup.
  - apply total_names.
  - intros df fv Hfv. pose proof (final_values_keys df fv Hfv) as Hkeys.
    split; [|done].
    apply (f_equal length) in Hkeys. unfold Py.dict_keys in Hkeys.
    rewrite !length_map in Hkeys. by rewrite Hkeys.
  - intros league df r (vs & _ & _ & Hb & Hw & _)%summarise_inv.
    split; by apply dict_get_keys.
Qed.

(** ** Seasons *)

Lemma seasons_of_league_files :
  Forall (fun lf => season_of lf.2 = Returned "2023-2024"
                    /\ season_by_words lf.2 = season_of lf.2)
         league_files.
Proof. repeat constructor; vm_compute; reflexivity. Qed.

Lemma league_file_season (league file_path : string) :
  Py.dict_item league_files league = Returned file_path ->
  season_of file_path = Returned "2023-2024".
Proof.
  unfold Py.dict_item.
  destruct (Py.dict_get league_files league) as [f|] eqn:Hget; [|done].
  intros [= ->]. apply dict_get_elem in Hget.
  pose proof seasons_of_league_files as Hall.
  rewrite Forall_forall in Hall. by destruct (Hall _ Hget).
Qed.

Lemma index_from_end_reverse {A} (l : list A) (k : nat) :
  Py.index_from_end l (S k)
  = match reverse l !! k with
    | Some x => Returned x
    | None => Raised IndexError
    end.
Proof.
  unfold Py.index_from_end.
  destruct (Nat.ltb_spec (length l) (S k)) as [Hlt|Hge].
  - rewrite (proj2 (lookup_ge_None (reverse l) k)); [done|].
    rewrite length_reverse. lia.
  - rewrite reverse_lookup by lia. done.
Qed.

Lemma season_of_segments (file_path : string) :
  season_of file_path
  = match reverse (Py.split_skip "-" 0 "" file_path) with
    | last_segment :: second_to_last :: _ =>
        Returned (second_to_last +:+ "-"
                  +:+ Py.replace "_financial_returns.csv" "" last_segment)
    | _ => Raised IndexError
    end.
Proof.
  unfold season_of, Py.split. cbn [mbind result_bind mret result_ret].
  rewrite !index_from_end_reverse.
  by destruct (reverse _) as [|last_segment [|second_to_last rest]].
Qed.

Lemma string_app_cons (c : ascii) (s t : string) :
  String c s +:+ t = String c (s +:+ t).
Proof. reflexivity. Qed.

Lemma string_app_assoc (s1 s2 s3 : string) : (s1 +:+ s2) +:+ s3 = s1 +:+ s2 +:+ s3.
Proof. induction s1 as [|c s1 IH]; [done|]. rewrite !string_app_cons. by f_equal. Qed.

Lemma string_app_empty_r (s : string) : s +:+ "" = s.
Proof. induction s as [|c s IH]; [done|]. rewrite string_app_cons. by f_equal. Qed.

Lemma prefix_single (a c : ascii) (s : string) :
  String.prefix (String a "") (String c s) = if ascii_dec a c then true else false.
Proof.
  cbn [String.prefix]. destruct (ascii_dec a c); [by destruct s|done].
Qed.

Lemma split_dash_app (s1 s2 cur : string) :
  Py.split_skip "-" 0 cur (s1 +:+ "-" +:+ s2)
  = Py.split_skip "-" 0 cur s1 ++ Py.split_skip "-" 0 "" s2.
Proof.
  revert cur. induction s1 as [|c s1 IH]; intros cur.
  - change ("" +:+ "-" +:+ s2) with (String "-" s2).
    cbn [Py.split_skip]. by rewrite prefix_single.
  - rewrite string_app_cons. cbn [Py.split_skip]. rewrite !prefix_single.
    destruct (ascii_dec "-" c) as [<-|Hne].
    + cbn [String.length Nat.sub]. by rewrite IH.
    + apply IH.
Qed.

Lemma split_no_dash (s cur : string) :
  no_char "-" s -> Py.split_skip "-" 0 cur s = [cur +:+ s].
Proof.
  revert cur. induction s as [|c s IH]; intros cur Hno.
  - simpl. by rewrite string_app_empty_r.
  - destruct Hno as [Hc Hno]. cbn [Py.split_skip]. rewrite prefix_single.
    destruct (ascii_dec "-" c) as [<-|_]; [done|].
    rewrite IH by done. by rewrite string_app_assoc.
Qed.

Lemma no_char_app (c : ascii) (s1 s2 : string) :
  no_char c s1 -> no_char c s2 -> no_char c (s1 +:+ s2).
Proof.
  induction s1 as [|d s1 IH]; [done|]. rewrite string_app_cons.
  intros [? ?] ?. split; auto.
Qed.

Lemma replace_suffix_only (b : string) :
  no_char "_" b ->
  Py.replace "_financial_returns.csv" "" (b +:+ "_financial_returns.csv") = b.
Proof.
  unfold Py.replace. induction b as [|c b IH]; intros Hno.
  - vm_compute. reflexivity.
  - destruct Hno as [Hc Hno].
    rewrite string_app_cons. cbn [Py.replace_skip String.prefix].
    destruct (ascii_dec "_" c) as [<-|_]; [done|].
    by rewrite IH.
Qed.

(** The season of a file named as the input files are: a stem, a hyphen,
    the first year, a hyphen, the second year and the suffix. *)
Lemma season_of_named_file (stem first_year second_year : string) :
  no_char "-" first_year ->
  no_char "-" second_year ->
  no_char "_" second_year ->
  season_of (stem +:+ "-" +:+ first_year +:+ "-" +:+ second_year
             +:+ "_financial_returns.csv")
  = Returned (first_year +:+ "-" +:+ second_year).
Proof.
  intros Hfirst Hsecond Hunderscore.
  rewrite season_of_segments, split_dash_app, split_dash_app.
  rewrite (split_no_dash first_year) by done.
  rewrite (split_no_dash (second_year +:+ _)).
  2: { apply no_char_app; [done|]. vm_compute. repeat split; discriminate. }
  rewrite !reverse_app, !reverse_singleton. cbn [app].
  change ("" +:+ first_year) with first_year.
  change ("" +:+ second_year +:+ "_financial_returns.csv")
    with (second_year +:+ "_financial_returns.csv").
  by rewrite replace_suffix_only.
Qed.

(** C3.  The season of a file is the second-to-last hyphen segment of its
    name, a hyphen, and the last segment without
    [_financial_returns.csv].  For a file named stem, hyphen, first year,
    hyphen, second year, suffix that is the two years joined by a hyphen; for
    each of the nine configured files, the first of them
    [england_premier-league-2023-2024_financial_returns.csv], the code's
    season is the one the words describe, and it is [2023-2024]. *)
Theorem season_of_configured_files :
  season_of "england_premier-league-2023-2024_financial_returns.csv"
  = Returned "2023-2024"
  /\ length league_files = 9%nat
  /\ Forall (fun lf => season_of lf.2 = Returned "2023-2024"
                       /\ season_by_words lf.2 = season_of lf.2)
            league_files
  /\ (forall file_path,
        season_of file_path
        = match reverse (Py.split_skip "-" 0 "" file_path) with
          | last_segment :: second_to_last :: _ =>
              Returned (second_to_last +:+ "-"
                        +:+ Py.replace "_financial_returns.csv" "" last_segment)
          | _ => Raised IndexError
          end)
  /\ (forall stem first_year second_year,
        no_char "-" first_year ->
        no_char "-" second_year ->
        no_char "_" second_year ->
        season_of (stem +:+ "-" +:+ first_year +:+ "-" +:+ second_year
                   +:+ "_financial_returns.csv")
        = Returned (first_year +:+ "-" +:+ second_year)).
Proof.
  split; [vm_compute; reflexivity|]. split; [reflexivity|].
  split; [apply seasons_of_league_files|].
  split; [apply season_of_segments|apply season_of_named_file].
Qed.

Lemma season_of_configured_files_witness :
  season_of ("italy_serie-a" +:+ "-" +:+ "2023" +:+ "-" +:+ "2024"
             +:+ "_financial_returns.csv")
  = Returned "2023-2024"
  /\ Py.dict_get league_files "Serie A (Italy)"
     = Some ("italy_serie-a" +:+ "-" +:+ "2023" +:+ "-" +:+ "2024"
             +:+ "_financial_returns.csv").
Proof.
  split; [|vm_compute; reflexivity].
  destruct season_of_configured_files as (_ & _ & _ & _ & Hnamed).
  apply (Hnamed "italy_serie-a" "2023" "2024");
    vm_compute; repeat split; discriminate.
Defined.

(** ** Computations that only display *)

Lemma bind_returned {A B} (m : M A) (f : A -> M B) (w w' : world) (a : A) :
  m w = (w', Returned a) -> (m ≫= f) w = f a w'.
Proof. intros H. unfold mbind, M_bind. by rewrite H. Qed.

Lemma bind_raised {A B} (m : M A) (f : A -> M B) (w w' : world) (e : exn) :
  m w = (w', Raised e) -> (m ≫= f) w = (w', Raised e).
Proof. intros H. unfold mbind, M_bind. by rewrite H. Qed.

Lemma emits_emit (e : element) : emits (emit e) [e].
Proof. by intros w. Qed.

Lemma emits_ret : emits (mret tt) [].
Proof. intros [store p]. unfold mret, M_ret. simpl. by rewrite app_nil_r. Qed.

Lemma emits_seq (m1 m2 : M unit) (es1 es2 : list element) :
  emits m1 es1 -> emits m2 es2 -> emits (m1;; m2) (es1 ++ es2).
Proof.
  intros H1 H2 w. erewrite bind_returned; [|apply H1].
  rewrite H2. simpl. by rewrite app_assoc.
Qed.

Lemma emits_for_each {A} (l : list A) (body : A -> M unit) (f : A -> list element) :
  (forall x, emits (body x) (f x)) ->
  emits (for_each l body) (concat (map f l)).
Proof.
  intros H. induction l as [|x l IH]; simpl.
  - apply emits_ret.
  - by apply emits_seq.
Qed.

Lemma emits_shown (m : M unit) (es : list element) : emits m es -> shown m = es.
Proof. intros H. unfold shown. by rewrite H. Qed.

Lemma emits_banner : emits banner (shown banner).
Proof.
  assert (exists es, emits banner es) as [es Hes].
  { eexists. unfold banner. repeat apply emits_seq; apply emits_emit. }
  by rewrite (emits_shown _ _ Hes).
Qed.

Lemma emits_closing : emits closing (shown closing).
Proof.
  assert (exists es, emits closing es) as [es Hes].
  { eexists. unfold closing. repeat apply emits_seq; apply emits_emit. }
  by rewrite (emits_shown _ _ Hes).
Qed.

Lemma emits_summary_key : emits summary_key (shown summary_key).
Proof.
  assert (exists es, emits summary_key es) as [es Hes].
  { eexists. unfold summary_key.
    apply emits_seq; [apply emits_emit|].
    apply emits_seq; [|apply emits_emit].
    apply emits_for_each with (f := fun cd => [EStrategyKey (bar_color cd.1) cd.2]).
    intros x. apply emits_emit. }
  by rewrite (emits_shown _ _ Hes).
Qed.

(** C5.  Pressing Load Data with no league selected shows the warning
    between the banner and the closing lines, ends without an exception,
    and leaves the session store as it was, whatever the files hold. *)
Theorem load_without_selection (disk : string -> result DataFrame)
  (store : gmap string DataFrame) :
  run {| i_disk := disk; i_selected := []; i_clicked := Some LoadData |} store
  = ({| session_state := store;
        page := shown banner
                ++ [EWarning "Please select at least one league."]
                ++ shown closing |},
     Returned tt).
Proof.
  assert (Hm : emits (script disk [] (Some LoadData))
                     (shown banner
                      ++ ([EWarning "Please select at least one league."]
                          ++ [] ++ [] ++ shown closing))).
  { unfold script. apply emits_seq; [apply emits_banner|].
    apply emits_seq; [apply emits_emit|].
    apply emits_seq; [apply emits_ret|].
    apply emits_seq; [apply emits_ret|].
    apply emits_closing. }
  unfold run. cbn [i_disk i_selected i_clicked]. by rewrite Hm.
Qed.

(** ** The loops over the selection *)

Lemma summarise_selected_run (records : list BestWorstRecord) (league : string)
  (w : world) :
  summarise_selected records league w
  = match session_state w !! session_key league with
    | Some df => (w, r ← summarise league df; mret (records ++ [r]))
    | None => (w, Returned records)
    end.
Proof.
  unfold summarise_selected, session_contains, session_item, lift.
  unfold mbind at 1, M_bind.
  destruct (session_state w !! session_key league) as [df|] eqn:Hdf.
  - rewrite bool_decide_true by by eexists.
    unfold mbind at 1, M_bind. rewrite Hdf.
    unfold mbind at 1, M_bind. by destruct (summarise league df).
  - rewrite bool_decide_false by by intros [? ?]. done.
Qed.

Lemma plot_selected_run (league : string) (w : world) :
  plot_selected league w
  = match session_state w !! session_key league with
    | Some df => plot_league league df w
    | None => (w, Returned tt)
    end.
Proof.
  unfold plot_selected, session_contains, session_item.
  unfold mbind at 1, M_bind.
  destruct (session_state w !! session_key league) as [df|] eqn:Hdf.
  - rewrite bool_decide_true by by eexists.
    unfold mbind at 1, M_bind. by rewrite Hdf.
  - rewrite bool_decide_false by by intros [? ?]. done.
Qed.

Lemma for_collect_not_loaded (selected : list string)
  (records : list BestWorstRecord) (w : world) :
  Forall (fun league => session_state w !! session_key league = None) selected ->
  for_collect selected records summarise_selected w = (w, Returned records).
Proof.
  induction 1 as [|league selected Hnone _ IH]; [done|].
  cbn [for_collect]. erewrite bind_returned; [exact IH|].
  by rewrite summarise_selected_run, Hnone.
Qed.

(** C8.  With no selected league loaded, the summary action shows its
    caption and then stops in [KeyError: 'best_return_column'] at line 160:
    the frame built from no records has no columns.  No table and no chart
    is shown, nor the closing lines. *)
Theorem summary_without_loaded_league (disk : string -> result DataFrame)
  (selected : list string) (store : gmap string DataFrame) :
  Forall (fun league => store !! session_key league = None) selected ->
  run {| i_disk := disk; i_selected := selected; i_clicked := Some ViewBestWorst |}
      store
  = ({| session_state := store;
        page := shown banner
                ++ [ECaption "✅ Crunch test: Let’s see who strutted and who stumbled, league by league."] |},
     Raised (KeyError "best_return_column")).
Proof.
  intros Hnone. unfold run. cbn [i_disk i_selected i_clicked].
  unfold script.
  erewrite bind_returned; [|apply emits_banner].
  change (st_button (Some ViewBestWorst) LoadData) with false.
  change (st_button (Some ViewBestWorst) ViewPlots) with false.
  change (st_button (Some ViewBestWorst) ViewBestWorst) with true.
  cbn iota.
  erewrite bind_returned; [|apply emits_ret].
  erewrite bind_returned; [|apply emits_ret].
  cbn [session_state page]. rewrite !app_nil_l, !app_nil_r.
  erewrite bind_raised; [reflexivity|].
  unfold view_best_worst.
  erewrite bind_returned; [|apply emits_emit].
  erewrite bind_returned; [|by apply for_collect_not_loaded].
  reflexivity.
Qed.

Lemma summary_without_loaded_league_witness :
  (run {| i_disk := sample_disk sample_finals;
          i_selected := ["Premier League"; "Championship"];
          i_clicked := Some ViewBestWorst |} ∅).2
  = Raised (KeyError "best_return_column")
  /\ dataframes
       (page (run {| i_disk := sample_disk sample_finals;
                     i_selected := ["Premier League"; "Championship"];
                     i_clicked := Some ViewBestWorst |} ∅).1) = [].
Proof.
  rewrite (summary_without_loaded_league (sample_disk sample_finals)
             ["Premier League"; "Championship"] ∅).
  - split; reflexivity.
  - repeat constructor.
Defined.

(** ** Computations that leave the store alone *)

Lemma page_only_ret {A} (a : A) : page_only (mret a : M A).
Proof. by intros w. Qed.

Lemma page_only_lift {A} (r : result A) : page_only (lift r).
Proof. by intros w. Qed.

Lemma page_only_emit (e : element) : page_only (emit e).
Proof. by intros w. Qed.

Lemma page_only_bind {A B} (m : M A) (f : A -> M B) :
  page_only m -> (forall a, page_only (f a)) -> page_only (m ≫= f).
Proof.
  intros Hm Hf w. unfold mbind, M_bind. specialize (Hm w).
  destruct (m w) as [w' [a|e]]; simpl in *; [|done].
  by rewrite Hf.
Qed.

Lemma page_only_for_each {A} (l : list A) (body : A -> M unit) :
  (forall x, page_only (body x)) -> page_only (for_each l body).
Proof.
  intros H. induction l as [|x l IH]; simpl.
  - apply page_only_ret.
  - apply page_only_bind; [apply H|by intros _].
Qed.

Lemma page_only_plot_league (league : string) (df : DataFrame) :
  page_only (plot_league league df).
Proof.
  unfold plot_league, st_markdown, st_write.
  apply page_only_bind; [apply page_only_lift|intros season].
  apply page_only_bind; [apply page_only_emit|intros _].
  apply page_only_bind; [apply page_only_lift|intros values].
  apply page_only_bind; [apply page_only_lift|intros series].
  apply page_only_bind; [apply page_only_lift|intros title_season].
  apply page_only_bind; [apply page_only_emit|intros _].
  apply page_only_bind; [apply page_only_emit|intros _].
  apply page_only_bind; [apply page_only_emit|intros _].
  apply page_only_bind; [|intros _; apply page_only_emit].
  apply page_only_for_each. intros col. unfold strategy_key_entry.
  apply page_only_bind; [apply page_only_lift|intros color].
  apply page_only_bind; [apply page_only_lift|intros description].
  apply page_only_emit.
Qed.

Lemma plot_loop_loaded (selected : list string) (w : world) :
  for_each selected plot_selected w
  = for_each (loaded_datasets selected (session_state w))
             (fun ld => plot_league ld.1 ld.2) w.
Proof.
  revert w. induction selected as [|league selected IH]; intros w; [done|].
  cbn [for_each]. unfold loaded_datasets. cbn [omap list_omap].
  fold (loaded_datasets selected (session_state w)).
  pose proof (plot_selected_run league w) as Hrun.
  destruct (session_state w !! session_key league) as [df|] eqn:Hdf; cbn [fmap option_fmap option_map].
  - cbn [for_each fst snd].
    pose proof (page_only_plot_league league df w) as Hstate.
    destruct (plot_league league df w) as [w' [[]|e]] eqn:Hplot; simpl in Hstate.
    + erewrite !bind_returned; [|exact Hplot|exact Hrun].
      by rewrite IH, Hstate.
    + by erewrite !bind_raised; [|exact Hplot|exact Hrun].
  - erewrite bind_returned; [|exact Hrun]. apply IH.
Qed.

Lemma summary_loop_loaded (selected : list string)
  (records : list BestWorstRecord) (w : world) :
  for_collect selected records summarise_selected w
  = (w, rs ← mapM (fun ld => summarise ld.1 ld.2)
                  (loaded_datasets selected (session_state w));
        mret (records ++ rs)).
Proof.
  revert records. induction selected as [|league selected IH]; intros records.
  - simpl. by rewrite app_nil_r.
  - cbn [for_collect]. unfold loaded_datasets. cbn [omap list_omap].
    fold (loaded_datasets selected (session_state w)).
    pose proof (summarise_selected_run records league w) as Hrun.
    destruct (session_state w !! session_key league) as [df|] eqn:Hdf; cbn [fmap option_fmap option_map].
    + cbn [mapM fst snd].
      destruct (summarise league df) as [r|e] eqn:Hr.
      * erewrite bind_returned; [|exact Hrun]. rewrite IH. f_equal.
        cbn [mbind result_bind].
        destruct (mapM _ _) as [rs|e]; simpl; [|done].
        by rewrite <- app_assoc.
      * by erewrite bind_raised; [|exact Hrun].
    + erewrite bind_returned; [|exact Hrun]. apply IH.
Qed.

Lemma loaded_datasets_filter (selected : list string)
  (store : gmap string DataFrame) :
  loaded_datasets (filter (is_loaded store) selected) store
  = loaded_datasets selected store.
Proof.
  unfold loaded_datasets, is_loaded.
  induction selected as [|league selected IH]; [done|].
  rewrite filter_cons. cbn [omap list_omap].
  destruct (store !! session_key league) as [df|] eqn:Hdf.
  - destruct (decide _) as [_|Hn].
    + cbn [omap list_omap]. rewrite Hdf. cbn [fmap option_fmap option_map].
      by rewrite IH.
    + exfalso. apply Hn, bool_decide_pack. by eexists.
  - destruct (decide _) as [Hy|_]; [|exact IH].
    apply bool_decide_unpack in Hy. by destruct Hy.
Qed.

(** What the script does when a button is pressed: the banner, the
    button's action and, unless that raised, the closing lines. *)
Lemma script_clicked (disk : string -> result DataFrame)
  (selected : list string) (b : button) (w : world) :
  script disk selected (Some b) w
  = match match b with
          | LoadData => load_data disk selected
          | ViewPlots => view_plots selected
          | ViewBestWorst => view_best_worst selected
          end
            {| session_state := session_state w;
               page := page w ++ shown banner |} with
    | (w', Returned _) => closing w'
    | (w', Raised e) => (w', Raised e)
    end.
Proof.
  unfold script. erewrite bind_returned; [|apply emits_banner].
  set (w1 := {| session_state := _; page := _ |}).
  assert (Hret : forall w2 : world,
             {| session_state := session_state w2; page := page w2 ++ [] |} = w2).
  { intros [store p]. simpl. by rewrite app_nil_r. }
  destruct b.
  - change (st_button (Some LoadData) LoadData) with true.
    change (st_button (Some LoadData) ViewPlots) with false.
    change (st_button (Some LoadData) ViewBestWorst) with false.
    cbv iota. unfold mbind at 1, M_bind at 1.
    destruct (load_data disk selected w1) as [w' [[]|e]]; [|done].
    erewrite bind_returned; [|apply emits_ret].
    erewrite bind_returned; [|apply emits_ret].
    by rewrite !Hret.
  - change (st_button (Some ViewPlots) LoadData) with false.
    change (st_button (Some ViewPlots) ViewPlots) with true.
    change (st_button (Some ViewPlots) ViewBestWorst) with false.
    cbv iota. erewrite bind_returned; [|apply emits_ret].
    rewrite Hret. unfold mbind at 1, M_bind at 1.
    destruct (view_plots selected w1) as [w' [[]|e]]; [|done].
    erewrite bind_returned; [|apply emits_ret].
    by rewrite Hret.
  - change (st_button (Some ViewBestWorst) LoadData) with false.
    change (st_button (Some ViewBestWorst) ViewPlots) with false.
    change (st_button (Some ViewBestWorst) ViewBestWorst) with true.
    cbv iota. erewrite bind_returned; [|apply emits_ret].
    erewrite bind_returned; [|apply emits_ret].
    rewrite !Hret. unfold mbind at 1, M_bind at 1.
    by destruct (view_best_worst selected w1) as [w' [[]|e]].
Qed.

Lemma view_plots_run (selected : list string) (w : world) :
  view_plots selected w
  = for_each (loaded_datasets selected (session_state w))
             (fun ld => plot_league ld.1 ld.2)
             {| session_state := session_state w;
                page := page w ++ [ECaption "✅ Visual test: Watching strategies rise, sink, or wobble around."] |}.
Proof.
  unfold view_plots. erewrite bind_returned; [|apply emits_emit].
  by rewrite plot_loop_loaded.
Qed.

Lemma view_best_worst_run (selected : list string) (w : world) :
  view_best_worst selected w
  = let w1 := {| session_state := session_state w;
                 page := page w ++ [ECaption "✅ Crunch test: Let’s see who strutted and who stumbled, league by league."] |} in
    match mapM (fun ld => summarise ld.1 ld.2)
               (loaded_datasets selected (session_state w)) with
    | Returned records => show_summary records w1
    | Raised e => (w1, Raised e)
    end.
Proof.
  unfold view_best_worst. erewrite bind_returned; [|apply emits_emit].
  unfold mbind at 1, M_bind at 1. rewrite summary_loop_loaded.
  cbn [session_state]. by destruct (mapM _ _) as [rs|e].
Qed.

Lemma view_plots_filter (selected : list string) (w : world) :
  view_plots selected w
  = view_plots (filter (is_loaded (session_state w)) selected) w.
Proof. by rewrite !view_plots_run, loaded_datasets_filter. Qed.

Lemma view_best_worst_filter (selected : list string) (w : world) :
  view_best_worst selected w
  = view_best_worst (filter (is_loaded (session_state w)) selected) w.
Proof. by rewrite !view_best_worst_run, loaded_datasets_filter. Qed.

(** C6.  In the plot action and in the summary action a selected league
    without a data set in the session store does nothing: no chart, no
    record, no exception.  Both loops do exactly what they would do on the
    loaded leagues alone, each with its data set and in the order of the
    selection; the records are the summaries of these data sets; and a
    run of either action is the run with the leagues that are not loaded
    taken out of the selection. *)
Theorem not_loaded_leagues_are_skipped (disk : string -> result DataFrame)
  (selected : list string) (w : world) :
  for_each selected plot_selected w
  = for_each (loaded_datasets selected (session_state w))
             (fun ld => plot_league ld.1 ld.2) w
  /\ for_collect selected [] summarise_selected w
     = (w, mapM (fun ld => summarise ld.1 ld.2)
                (loaded_datasets selected (session_state w)))
  /\ (forall league,
        session_state w !! session_key league = None ->
        plot_selected league w = (w, Returned tt)
        /\ (forall records,
              summarise_selected records league w = (w, Returned records))
        /\ league ∉ (loaded_datasets selected (session_state w)).*1)
  /\ (forall league df,
        league ∈ selected ->
        session_state w !! session_key league = Some df ->
        (league, df) ∈ loaded_datasets selected (session_state w))
  /\ script disk selected (Some ViewPlots) w
     = script disk (filter (is_loaded (session_state w)) selected) (Some ViewPlots) w
  /\ script disk selected (Some ViewBestWorst) w
     = script disk (filter (is_loaded (session_state w)) selected)
              (Some ViewBestWorst) w.
Proof.
  split; [apply plot_loop_loaded|]. split.
  { rewrite summary_loop_loaded. f_equal.
    by destruct (mapM _ _) as [rs|e]. }
  split; [|split; [|split]].
  - intros league Hnone. split; [|split].
    + by rewrite plot_selected_run, Hnone.
    + intros records. by rewrite summarise_selected_run, Hnone.
    + intros [[l df] [Hl Hin]]%list_elem_of_fmap. simpl in Hl. subst l.
      apply list_elem_of_omap in Hin as (l & _ & Hl).
      destruct (session_state w !! session_key l) as [df'|] eqn:Hdf; [|done].
      injection Hl as <- <-. congruence.
  - intros league df Hin Hdf. apply list_elem_of_omap.
    exists league. split; [done|]. by rewrite Hdf.
  - rewrite !script_clicked. by rewrite (view_plots_filter selected).
  - rewrite !script_clicked. by rewrite (view_best_worst_filter selected).
Qed.

Lemma not_loaded_leagues_are_skipped_witness :
  sample_store sample_finals !! session_key "Championship" = None
  /\ for_collect ["Championship"; "Premier League"; "League One"] []
       summarise_selected (sample_world sample_finals)
     = (sample_world sample_finals,
        Returned [ {| league_name := "Premier League";
                      best_return := CNum (num 20);
                      best_return_column := "away_returns_total";
                      worst_return := CNum (num (-20));
                      worst_return_column := "third_choice_returns_total" |} ])
  /\ map (fun fig => (lc_title fig).1)
         (line_charts
            (page (for_each ["Championship"; "Premier League"; "League One"]
                     plot_selected (sample_world sample_finals)).1))
     = ["Premier League"].
Proof.
  destruct (not_loaded_leagues_are_skipped (sample_disk sample_finals)
              ["Championship"; "Premier League"; "League One"]
              (sample_world sample_finals)) as (Hplot & Hsum & _ & _).
  split; [vm_compute; reflexivity|]. split.
  - rewrite Hsum. vm_compute. reflexivity.
  - rewrite Hplot. vm_compute. reflexivity.
Defined.

(** C7.  The colour of a bar is looked up under the winning column's name
    with [_total] turned back into [_running_total].  That gives the
    strategy's colour for the six [_running_total] columns; the random pick
    is stored under [random_choice_1_running_balance], is looked up under
    [random_choice_1_running_total], and its bar gets the fallback grey
    in place of magenta. *)
Theorem random_pick_bar_is_grey :
  bar_color (total_name "random_choice_1_running_balance") = "grey"
  /\ Py.dict_get strategy_colors "random_choice_1_running_balance" = Some "magenta"
  /\ Py.replace "_total" "_running_total" (total_name "random_choice_1_running_balance")
     = "random_choice_1_running_total"
  /\ Forall (fun cc => bar_color (total_name cc.1) = cc.2) (take 6 strategy_colors)
  /\ map bc_color
         (bar_charts
            (page (run {| i_disk := sample_disk [0; -5; 20; 0; 15; -20; 50];
                          i_selected := ["Premier League"];
                          i_clicked := Some ViewBestWorst |}
                       (sample_store [0; -5; 20; 0; 15; -20; 50])).1))
     = [["grey"]; ["brown"]].
Proof.
  split; [vm_compute; reflexivity|]. split; [vm_compute; reflexivity|].
  split; [vm_compute; reflexivity|]. split.
  - repeat constructor; vm_compute; reflexivity.
  - vm_compute. reflexivity.
Qed.

(** ** The session store *)

Lemma string_length_app (s t : string) :
  String.length (s +:+ t) = (String.length s + String.length t)%nat.
Proof. induction s as [|c s IH]; simpl; [done|]. by rewrite IH. Qed.

Lemma string_app_inj_r (s1 s2 t : string) : s1 +:+ t = s2 +:+ t -> s1 = s2.
Proof.
  revert s2. induction s1 as [|c s1 IH]; intros [|c' s2] H.
  - done.
  - apply (f_equal String.length) in H.
    rewrite !string_length_app in H. simpl in H. lia.
  - apply (f_equal String.length) in H.
    rewrite !string_length_app in H. simpl in H. lia.
  - simpl in H. injection H as -> H. f_equal. by apply IH.
Qed.

Lemma session_key_inj (l1 l2 : string) : session_key l1 = session_key l2 -> l1 = l2.
Proof. apply string_app_inj_r. Qed.

Lemma df_insert_inv (loc : nat) (name value : string) (df df' : DataFrame) :
  df_insert loc name value df = Returned df' ->
  index_len df' = index_len df
  /\ data df' = take loc (data df)
                ++ (name, StrCol (repeat value (index_len df)))
                :: drop loc (data df).
Proof.
  unfold df_insert.
  destruct (existsb _ _); [done|].
  destruct (_ <? _)%nat; [done|].
  by intros [= <-].
Qed.

(** The loader, one step after the other. *)
Lemma load_league_eq (disk : string -> result DataFrame) (league : string)
  (w : world) :
  load_league disk league w
  = match Py.dict_item league_files league with
    | Raised e => (w, Raised e)
    | Returned file_path =>
        match disk file_path with
        | Raised e => (w, Raised e)
        | Returned df0 =>
            match season_of file_path with
            | Raised e => (w, Raised e)
            | Returned season =>
                match df_insert 0 "league_name" league df0 with
                | Raised e => (w, Raised e)
                | Returned df1 =>
                    match df_insert 1 "season" season df1 with
                    | Raised e => (w, Raised e)
                    | Returned df2 =>
                        ({| session_state :=
                              <[session_key league := df2]> (session_state w);
                            page := page w |}, Returned tt)
                    end
                end
            end
        end
    end.
Proof.
  unfold load_league, read_csv, lift, session_set. unfold mbind, M_bind, mret, M_ret.
  destruct (Py.dict_item league_files league) as [file_path|e]; [|reflexivity].
  cbv beta iota. destruct (disk file_path) as [df0|e]; [|reflexivity].
  cbv beta iota. destruct (season_of file_path) as [season|e]; [|reflexivity].
  cbv beta iota. destruct (df_insert 0 "league_name" league df0) as [df1|e]; [|reflexivity].
  cbv beta iota. destruct (df_insert 1 "season" season df1) as [df2|e]; reflexivity.
Qed.

(** Loading a league either stops in an exception before the store is
    touched, or assigns the tagged data set of the league's file to the
    league's key. *)
Lemma load_league_run (disk : string -> result DataFrame) (league : string)
  (w : world) :
  (exists e, load_league disk league w = (w, Raised e))
  \/ (exists file_path df0 df,
         Py.dict_item league_files league = Returned file_path
         /\ disk file_path = Returned df0
         /\ index_len df = index_len df0
         /\ data df = ("league_name", StrCol (repeat league (index_len df0)))
                      :: ("season", StrCol (repeat "2023-2024" (index_len df0)))
                      :: data df0
         /\ load_league disk league w
            = ({| session_state := <[session_key league := df]> (session_state w);
                  page := page w |}, Returned tt)).
Proof.
  rewrite load_league_eq.
  destruct (Py.dict_item league_files league) as [file_path|e] eqn:Hfile;
    [|by left; eexists].
  destruct (disk file_path) as [df0|e] eqn:Hdisk; [|by left; eexists].
  rewrite (league_file_season _ _ Hfile).
  destruct (df_insert 0 "league_name" league df0) as [df1|e] eqn:H1;
    [|by left; eexists].
  destruct (df_insert 1 "season" "2023-2024" df1) as [df2|e] eqn:H2;
    [|by left; eexists].
  apply df_insert_inv in H1 as [Hlen1 Hdata1].
  apply df_insert_inv in H2 as [Hlen2 Hdata2].
  right. exists file_path, df0, df2. repeat split; try done.
  - congruence.
  - rewrite Hdata2, Hdata1, Hlen1. reflexivity.
Qed.

Lemma tagged_loaded (league : string) (df0 df : DataFrame) :
  index_len df = index_len df0 ->
  data df = ("league_name", StrCol (repeat league (index_len df0)))
            :: ("season", StrCol (repeat "2023-2024" (index_len df0)))
            :: data df0 ->
  tagged league "2023-2024" df.
Proof. intros Hlen Hdata. exists (data df0). by rewrite Hdata, Hlen. Qed.

Lemma preserves_page_only {A} (P : gmap string DataFrame -> Prop) (m : M A) :
  page_only m -> preserves P m.
Proof. intros H w HP. by rewrite H. Qed.

Lemma preserves_bind {A B} (P : gmap string DataFrame -> Prop)
  (m : M A) (f : A -> M B) :
  preserves P m -> (forall a, preserves P (f a)) -> preserves P (m ≫= f).
Proof.
  intros Hm Hf w HP. unfold mbind, M_bind. specialize (Hm w HP).
  destruct (m w) as [w' [a|e]]; simpl in *; [|done].
  by apply Hf.
Qed.

Lemma preserves_for_each {A} (P : gmap string DataFrame -> Prop)
  (l : list A) (body : A -> M unit) :
  (forall x, preserves P (body x)) -> preserves P (for_each l body).
Proof.
  intros H. induction l as [|x l IH]; simpl.
  - by intros w.
  - apply preserves_bind; [apply H|by intros _].
Qed.

Lemma emits_page_only (m : M unit) (es : list element) : emits m es -> page_only m.
Proof. intros H w. by rewrite H. Qed.

Lemma preserves_load_league (disk : string -> result DataFrame) (league : string) :
  preserves store_of_leagues (load_league disk league).
Proof.
  intros w HP.
  destruct (load_league_run disk league w)
    as [[e ->]|(file_path & df0 & df & Hfile & _ & Hlen & Hdata & ->)]; [done|].
  simpl. intros key df' Hkey.
  destruct (decide (key = session_key league)) as [->|Hne].
  - rewrite lookup_insert_eq in Hkey. injection Hkey as <-.
    exists league. split; [|split; [done|by eapply tagged_loaded]].
    unfold Py.dict_item in Hfile.
    destruct (Py.dict_get league_files league) eqn:Hget; [|done].
    by eapply dict_get_Some_keys.
  - rewrite lookup_insert_ne in Hkey by done. by apply HP.
Qed.

Lemma page_only_view_plots (selected : list string) : page_only (view_plots selected).
Proof.
  unfold view_plots.
  apply page_only_bind; [apply page_only_emit|intros _].
  apply page_only_for_each. intros league w. rewrite plot_selected_run.
  destruct (_ !! _); [apply page_only_plot_league|done].
Qed.

Lemma page_only_show_summary (summary_df : list BestWorstRecord) :
  page_only (show_summary summary_df).
Proof.
  unfold show_summary, st_write.
  do 7 (apply page_only_bind; [apply page_only_lift|intros ?]).
  do 4 (apply page_only_bind; [apply page_only_emit|intros _]).
  apply page_only_bind; [eapply emits_page_only, emits_summary_key|intros _].
  do 2 (apply page_only_bind; [apply page_only_emit|intros _]).
  eapply emits_page_only, emits_summary_key.
Qed.

Lemma page_only_view_best_worst (selected : list string) :
  page_only (view_best_worst selected).
Proof.
  unfold view_best_worst.
  apply page_only_bind; [apply page_only_emit|intros _].
  apply page_only_bind; [intros w; by rewrite summary_loop_loaded|intros summary_df].
  apply page_only_show_summary.
Qed.

Lemma preserves_script (disk : string -> result DataFrame)
  (selected : list string) (clicked : option button) :
  preserves store_of_leagues (script disk selected clicked).
Proof.
  unfold script.
  apply preserves_bind;
    [eapply preserves_page_only, emits_page_only, emits_banner|intros _].
  apply preserves_bind; [|intros _].
  { destruct (st_button clicked LoadData); [|by intros w].
    unfold load_data. destruct selected as [|league selected].
    - apply preserves_page_only, page_only_emit.
    - apply preserves_bind; [apply preserves_page_only, page_only_emit|intros _].
      apply preserves_bind; [|intros _; apply preserves_page_only, page_only_emit].
      apply preserves_for_each. intros l. apply preserves_load_league. }
  apply preserves_bind; [|intros _].
  { destruct (st_button clicked ViewPlots); [|by intros w].
    apply preserves_page_only, page_only_view_plots. }
  apply preserves_bind; [|intros _].
  { destruct (st_button clicked ViewBestWorst); [|by intros w].
    apply preserves_page_only, page_only_view_best_worst. }
  eapply preserves_page_only, emits_page_only, emits_closing.
Qed.

Lemma session_snoc (runs : list interaction) (i : interaction) :
  session (runs ++ [i]) = session_state (run i (session runs)).1.
Proof. unfold session. by rewrite foldl_app. Qed.

Lemma session_store_of_leagues (runs : list interaction) :
  store_of_leagues (session runs).
Proof.
  induction runs as [|i runs IH] using rev_ind.
  - intros key df Hkey. change (session []) with (∅ : gmap string DataFrame) in Hkey.
    by rewrite lookup_empty in Hkey.
  - rewrite session_snoc. unfold run.
    by apply (preserves_script (i_disk i) (i_selected i) (i_clicked i)
                {| session_state := session runs; page := [] |}).
Qed.

Lemma load_league_other (disk : string -> result DataFrame) (league other : string)
  (w : world) :
  other <> league ->
  session_state (load_league disk league w).1 !! session_key other
  = session_state w !! session_key other.
Proof.
  intros Hne.
  destruct (load_league_run disk league w)
    as [[e ->]|(file_path & df0 & df & _ & _ & _ & _ & ->)]; [done|].
  simpl. apply lookup_insert_ne. intros Heq%session_key_inj. congruence.
Qed.

Lemma load_loop_other (disk : string -> result DataFrame) (selected : list string)
  (other : string) (w : world) :
  other ∉ selected ->
  session_state (for_each selected (load_league disk) w).1 !! session_key other
  = session_state w !! session_key other.
Proof.
  revert w. induction selected as [|league selected IH]; intros w Hnot; [done|].
  apply not_elem_of_cons in Hnot as [Hne Hnot].
  cbn [for_each]. unfold mbind, M_bind.
  pose proof (load_league_other disk league other w Hne) as Hstep.
  destruct (load_league disk league w) as [w1 [[]|e]]; simpl in Hstep; [|done].
  by rewrite IH.
Qed.

(** After a load loop that ran to its end, every selected league has the
    tagged data set of its file under its key. *)
Lemma load_loop_loaded (disk : string -> result DataFrame) (selected : list string)
  (w w' : world) (league : string) :
  for_each selected (load_league disk) w = (w', Returned tt) ->
  league ∈ selected ->
  exists file_path df0 df,
    Py.dict_item league_files league = Returned file_path
    /\ disk file_path = Returned df0
    /\ index_len df = index_len df0
    /\ data df = ("league_name", StrCol (repeat league (index_len df0)))
                 :: ("season", StrCol (repeat "2023-2024" (index_len df0)))
                 :: data df0
    /\ session_state w' !! session_key league = Some df.
Proof.
  revert w. induction selected as [|l selected IH]; intros w Hrun Hin.
  - by apply elem_of_nil in Hin.
  - cbn [for_each] in Hrun. unfold mbind, M_bind in Hrun.
    destruct (load_league_run disk l w)
      as [[e He]|(file_path & df0 & df & Hfile & Hdisk & Hlen & Hdata & Hload)].
    { by rewrite He in Hrun. }
    rewrite Hload in Hrun.
    destruct (decide (league ∈ selected)) as [Hrest|Hrest]; [by eapply IH|].
    apply elem_of_cons in Hin as [->|Hin]; [|done].
    exists file_path, df0, df. repeat split; try done.
    match type of Hrun with
    | for_each _ _ ?w1 = _ =>
        pose proof (load_loop_other disk selected l w1 Hrest) as Hother
    end.
    rewrite Hrun in Hother. simpl in Hother.
    by rewrite Hother, lookup_insert_eq.
Qed.

Lemma load_loop_dom (disk : string -> result DataFrame) (selected : list string)
  (w w' : world) :
  for_each selected (load_league disk) w = (w', Returned tt) ->
  dom (session_state w')
  = dom (session_state w) ∪ list_to_set (session_key <$> selected).
Proof.
  revert w. induction selected as [|l selected IH]; intros w Hrun.
  - injection Hrun as <-. simpl. by rewrite union_empty_r_L.
  - cbn [for_each] in Hrun. unfold mbind, M_bind in Hrun.
    destruct (load_league_run disk l w)
      as [[e He]|(file_path & df0 & df & _ & _ & _ & _ & Hload)].
    { by rewrite He in Hrun. }
    rewrite Hload in Hrun. apply IH in Hrun. rewrite Hrun. simpl.
    rewrite dom_insert_L, (union_comm_L {[session_key l]}).
    by rewrite <- union_assoc_L.
Qed.

(** A run of Load Data that ends without an exception has run the load
    loop to its end; its store is the store the loop left. *)
Lemma load_run_returned (disk : string -> result DataFrame)
  (league : string) (selected : list string) (store : gmap string DataFrame) :
  (run {| i_disk := disk; i_selected := league :: selected;
          i_clicked := Some LoadData |} store).2 = Returned tt ->
  exists w w',
    for_each (league :: selected) (load_league disk) w = (w', Returned tt)
    /\ session_state w = store
    /\ session_state
         (run {| i_disk := disk; i_selected := league :: selected;
                 i_clicked := Some LoadData |} store).1
       = session_state w'.
Proof.
  unfold run. cbn [i_disk i_selected i_clicked]. unfold script.
  erewrite bind_returned; [|apply emits_banner].
  change (st_button (Some LoadData) LoadData) with true.
  change (st_button (Some LoadData) ViewPlots) with false.
  change (st_button (Some LoadData) ViewBestWorst) with false.
  cbv iota. unfold load_data.
  set (w0 := {| session_state := _; page := _ |}).
  set (info := "✅ Scraped with intelligent imagination — fun, free, and powered by Selenium.").
  set (w1 := {| session_state := session_state w0; page := page w0 ++ [EInfo info] |}).
  set (load := st_info info ≫= _).
  destruct (for_each (league :: selected) (load_league disk) w1)
    as [w' [[]|e]] eqn:Hloop.
  - assert (exists w2, load w0 = (w2, Returned tt)
                       /\ session_state w2 = session_state w') as (w2 & Hload & Hw2).
    { eexists. unfold load. erewrite bind_returned; [|apply emits_emit].
      fold w1. erewrite bind_returned; [|exact Hloop].
      split; [apply emits_emit|done]. }
    intros _. exists w1, w'. split; [done|]. split; [done|].
    erewrite bind_returned; [|exact Hload].
    erewrite bind_returned; [|apply emits_ret].
    erewrite bind_returned; [|apply emits_ret].
    by rewrite emits_closing.
  - assert (Hload : load w0 = (w', Raised e)).
    { unfold load. erewrite bind_returned; [|apply emits_emit].
      fold w1. by erewrite bind_raised; [|exact Hloop]. }
    by erewrite bind_raised; [|exact Hload].
Qed.

(** C4.  After any sequence of runs the session store holds data sets of
    configured leagues only, each under the key of its league and tagged
    with that league and its season; no league has more than one entry
    (different leagues have different keys), so the store never has more
    entries than there are leagues.  A Load Data run that ends without an
    exception leaves, under the key of every selected league, the data set
    just read from the league's file, whatever was stored there before. *)
Theorem one_dataset_per_league (runs : list interaction) :
  store_of_leagues (session runs)
  /\ (forall league,
        (size (filter (fun kd => kd.1 = session_key league) (session runs)) <= 1)%nat)
  /\ (size (session runs) <= length league_files)%nat
  /\ (forall l1 l2, session_key l1 = session_key l2 -> l1 = l2)
  /\ (forall i league,
        i_clicked i = Some LoadData ->
        league ∈ i_selected i ->
        (run i (session runs)).2 = Returned tt ->
        exists file_path df0 df,
          Py.dict_item league_files league = Returned file_path
          /\ i_disk i file_path = Returned df0
          /\ index_len df = index_len df0
          /\ data df = ("league_name", StrCol (repeat league (index_len df0)))
                       :: ("season", StrCol (repeat "2023-2024" (index_len df0)))
                       :: data df0
          /\ session (runs ++ [i]) !! session_key league = Some df
          /\ dom (session (runs ++ [i]))
             = dom (session runs) ∪ list_to_set (session_key <$> i_selected i)).
Proof.
  pose proof (session_store_of_leagues runs) as Hinv.
  split; [done|]. split; [|split; [|split]].
  - intros league. rewrite <- (size_dom (D := gset string)).
    etrans; [apply (subseteq_size _ {[session_key league]})|by rewrite size_singleton].
    intros key [df Hkey]%elem_of_dom.
    apply map_lookup_filter_Some in Hkey as [_ Hkey]. simpl in Hkey.
    by apply elem_of_singleton.
  - rewrite <- (size_dom (D := gset string)).
    etrans; [apply (subseteq_size _ (list_to_set (session_key <$> Py.dict_keys league_files)))|].
    + intros key [df Hkey]%elem_of_dom.
      destruct (Hinv key df Hkey) as (league & Hleague & -> & _).
      apply elem_of_list_to_set, list_elem_of_fmap. by exists league.
    + rewrite size_list_to_set; [by rewrite !length_fmap|]. compute_done.
  - apply session_key_inj.
  - intros [disk selected clicked] league Hclicked Hin Hret. simpl in *. subst clicked.
    destruct selected as [|l selected]; [by apply elem_of_nil in Hin|].
    destruct (load_run_returned disk l selected (session runs) Hret)
      as (w & w' & Hloop & Hw & Hstate).
    destruct (load_loop_loaded disk _ w w' league Hloop Hin)
      as (file_path & df0 & df & H1 & H2 & H3 & H4 & H5).
    exists file_path, df0, df. rewrite session_snoc, Hstate.
    repeat split; try done.
    by rewrite (load_loop_dom _ _ _ _ Hloop), Hw.
Qed.

(** Loading the Premier League and loading it again from a changed file:
    one entry, holding the data set of the second load. *)
Lemma one_dataset_per_league_witness :
  size (session [ {| i_disk := sample_disk sample_finals;
                     i_selected := ["Premier League"];
                     i_clicked := Some LoadData |};
                  {| i_disk := sample_disk [1; 2; 3; 4; 5; 6; 7];
                     i_selected := ["Premier League"];
                     i_clicked := Some LoadData |} ]) = 1%nat
  /\ exists df,
       session [ {| i_disk := sample_disk sample_finals;
                    i_selected := ["Premier League"];
                    i_clicked := Some LoadData |};
                 {| i_disk := sample_disk [1; 2; 3; 4; 5; 6; 7];
                    i_selected := ["Premier League"];
                    i_clicked := Some LoadData |} ]
       !! session_key "Premier League" = Some df
       /\ data df = ("league_name", StrCol ["Premier League"; "Premier League"])
                    :: ("season", StrCol ["2023-2024"; "2023-2024"])
                    :: sample_columns [1; 2; 3; 4; 5; 6; 7].
Proof.
  split; [vm_compute; reflexivity|].
  destruct (one_dataset_per_league
              [ {| i_disk := sample_disk sample_finals;
                   i_selected := ["Premier League"];
                   i_clicked := Some LoadData |} ])
    as (_ & _ & _ & _ & Hreload).
  destruct (Hreload {| i_disk := sample_disk [1; 2; 3; 4; 5; 6; 7];
                       i_selected := ["Premier League"];
                       i_clicked := Some LoadData |} "Premier League")
    as (file_path & df0 & df & Hfile & Hdisk & _ & Hdata & Hkey & _).
  - reflexivity.
  - apply elem_of_cons. by left.
  - vm_compute. reflexivity.
  - exists df. split; [exact Hkey|].
    assert (file_path = "england_premier-league-2023-2024_financial_returns.csv") as ->.
    { vm_compute in Hfile. by injection Hfile. }
    vm_compute in Hdisk. injection Hdisk as <-. exact Hdata.
Defined.

Lemma total_names_are_described_witness :
  total_name "random_choice_1_running_balance" = "random_choice_1_total"
  /\ length (zip (Py.dict_keys column_name_map) (CNum <$> map num sample_finals))
     = 7%nat
  /\ is_Some (Py.dict_get column_name_map "away_returns_total").
Proof.
  destruct total_names_are_described as (_ & _ & Hfv & Hdesc).
  split; [vm_compute; reflexivity|]. split.
  - apply (Hfv (sample_df sample_finals)). vm_compute. reflexivity.
  - apply (Hdesc "Premier League" (sample_df sample_finals)
             {| league_name := "Premier League";
                best_return := CNum (num 20);
                best_return_column := "away_returns_total";
                worst_return := CNum (num (-20));
                worst_return_column := "third_choice_returns_total" |}).
    vm_compute. reflexivity.
Defined.

(** * More of the script *)

(** ** The loader *)

Lemma load_league_frame (disk : string -> result DataFrame) (league : string)
  (w : world) :
  load_league disk league w
  = match loaded_frame disk league with
    | Returned df =>
        ({| session_state := <[session_key league := df]> (session_state w);
            page := page w |}, Returned tt)
    | Raised e => (w, Raised e)
    end.
Proof.
  rewrite load_league_eq. unfold loaded_frame.
  destruct (Py.dict_item league_files league) as [file_path|e]; [|done].
  cbn [mbind result_bind]. destruct (disk file_path) as [df0|e]; [|done].
  cbn [mbind result_bind]. destruct (season_of file_path) as [season|e]; [|done].
  cbn [mbind result_bind].
  destruct (df_insert 0 "league_name" league df0) as [df1|e]; [|done].
  cbn [mbind result_bind].
  by destruct (df_insert 1 "season" season df1) as [df2|e].
Qed.

Lemma store_all_snoc (entries : list (string * DataFrame)) (key : string)
  (df : DataFrame) (store : gmap string DataFrame) :
  store_all (entries ++ [(key, df)]) store = <[key := df]> (store_all entries store).
Proof. unfold store_all. by rewrite foldl_app. Qed.

(** The load loop commits the leagues whose frames can be built, in order,
    and goes on with the rest. *)
Lemma load_loop_commits (disk : string -> result DataFrame)
  (loaded rest : list string) (frames : list DataFrame) (w : world) :
  Forall2 (fun league df => loaded_frame disk league = Returned df) loaded frames ->
  for_each (loaded ++ rest) (load_league disk) w
  = for_each rest (load_league disk)
      {| session_state :=
           store_all (zip (session_key <$> loaded) frames) (session_state w);
         page := page w |}.
Proof.
  intros H. revert w. induction H as [|league df loaded frames Hdf _ IH]; intros w.
  - by destruct w.
  - cbn [app for_each]. erewrite bind_returned.
    2: { rewrite load_league_frame, Hdf. reflexivity. }
    rewrite IH. reflexivity.
Qed.

Lemma existsb_eqb_elem_of (name : string) (names : list string) :
  existsb (String.eqb name) names = bool_decide (name ∈ names).
Proof.
  induction names as [|n names IH].
  - symmetry. apply bool_decide_eq_false, not_elem_of_nil.
  - cbn [existsb]. rewrite IH.
    destruct (String.eqb_spec name n) as [->|Hne]; cbn [orb].
    + symmetry. apply bool_decide_eq_true, elem_of_cons. by left.
    + apply bool_decide_ext. rewrite elem_of_cons.
      split; [by right|by intros [?|?]].
Qed.

Lemma df_insert_existing (loc : nat) (name value : string) (df : DataFrame) :
  name ∈ column_names df ->
  df_insert loc name value df
  = Raised (ValueError ("cannot insert " +:+ name +:+ ", already exists")).
Proof.
  intros Hin. unfold df_insert. fold (Py.dict_keys (data df)).
  fold (column_names df). rewrite existsb_eqb_elem_of.
  by rewrite bool_decide_eq_true_2.
Qed.

Lemma df_insert_new (loc : nat) (name value : string) (df : DataFrame) :
  name ∉ column_names df ->
  (loc <= length (data df))%nat ->
  df_insert loc name value df
  = Returned {| index_len := index_len df;
                data := take loc (data df)
                        ++ (name, StrCol (repeat value (index_len df)))
                        :: drop loc (data df) |}.
Proof.
  intros Hin Hloc. unfold df_insert. fold (Py.dict_keys (data df)).
  fold (column_names df). rewrite existsb_eqb_elem_of.
  rewrite bool_decide_eq_false_2 by done.
  destruct (Nat.ltb_spec (length (data df)) loc); [lia|done].
Qed.

Lemma loaded_frame_by_cases (disk : string -> result DataFrame)
  (league file_path : string) :
  Py.dict_item league_files league = Returned file_path ->
  match disk file_path with
  | Raised e => loaded_frame disk league = Raised e
  | Returned df0 =>
      if bool_decide ("league_name" ∈ column_names df0)
      then loaded_frame disk league
           = Raised (ValueError "cannot insert league_name, already exists")
      else if bool_decide ("season" ∈ column_names df0)
      then loaded_frame disk league
           = Raised (ValueError "cannot insert season, already exists")
      else loaded_frame disk league
           = Returned
               {| index_len := index_len df0;
                  data := ("league_name", StrCol (repeat league (index_len df0)))
                          :: ("season", StrCol (repeat "2023-2024" (index_len df0)))
                          :: data df0 |}
  end.
Proof.
  intros Hfile. unfold loaded_frame. rewrite Hfile. cbn [mbind result_bind].
  destruct (disk file_path) as [df0|e]; [|done]. cbn [mbind result_bind].
  rewrite (league_file_season _ _ Hfile). cbn [mbind result_bind].
  case_bool_decide as Hleague.
  { by rewrite df_insert_existing. }
  rewrite df_insert_new by (done || simpl; lia).
  cbn [mbind result_bind take drop app].
  case_bool_decide as Hseason.
  - rewrite df_insert_existing; [done|].
    unfold column_names, Py.dict_keys. cbn [data map fst].
    apply elem_of_cons. by right.
  - rewrite df_insert_new; [done| |simpl; lia].
    unfold column_names, Py.dict_keys. cbn [data map fst].
    intros [Heq|Hin]%elem_of_cons; [discriminate|done].
Qed.

(** X1.  What the loader makes of a configured league: when [read_csv]
    raises, the loader ends in that exception, whichever it is
    ([FileNotFoundError] without a file, [EmptyDataError] for a file without
    content); a file that is read and already has a [league_name] column,
    or else a [season] column, is refused by [df.insert] with [ValueError];
    otherwise the frame is the file's, with the league and the season
    [2023-2024] repeated down two new first columns. *)
Theorem loaded_frame_cases (disk : string -> result DataFrame)
  (league file_path : string) :
  Py.dict_item league_files league = Returned file_path ->
  match disk file_path with
  | Raised e => loaded_frame disk league = Raised e
  | Returned df0 =>
      if bool_decide ("league_name" ∈ column_names df0)
      then loaded_frame disk league
           = Raised (ValueError "cannot insert league_name, already exists")
      else if bool_decide ("season" ∈ column_names df0)
      then loaded_frame disk league
           = Raised (ValueError "cannot insert season, already exists")
      else loaded_frame disk league
           = Returned
               {| index_len := index_len df0;
                  data := ("league_name", StrCol (repeat league (index_len df0)))
                          :: ("season", StrCol (repeat "2023-2024" (index_len df0)))
                          :: data df0 |}
  end.
Proof. apply loaded_frame_by_cases. Qed.

Lemma loaded_frame_cases_witness :
  loaded_frame (sample_disk sample_finals) "Premier League"
  = Returned
      {| index_len := 2;
         data := ("league_name", StrCol ["Premier League"; "Premier League"])
                 :: ("season", StrCol ["2023-2024"; "2023-2024"])
                 :: sample_columns sample_finals |}
  /\ loaded_frame (sample_disk sample_finals) "Championship"
     = Raised (FileNotFoundError "england_championship-2023-2024_financial_returns.csv")
  /\ loaded_frame (fun _ => Raised EmptyDataError) "Championship"
     = Raised EmptyDataError.
Proof.
  split; [|split].
  - apply (loaded_frame_cases (sample_disk sample_finals) "Premier League"
             "england_premier-league-2023-2024_financial_returns.csv").
    vm_compute. reflexivity.
  - apply (loaded_frame_cases (sample_disk sample_finals) "Championship"
             "england_championship-2023-2024_financial_returns.csv").
    vm_compute. reflexivity.
  - apply (loaded_frame_cases (fun _ => Raised EmptyDataError) "Championship"
             "england_championship-2023-2024_financial_returns.csv").
    vm_compute. reflexivity.
Defined.

Lemma load_data_commits (disk : string -> result DataFrame)
  (loaded rest : list string) (frames : list DataFrame) (w : world) :
  loaded ++ rest <> [] ->
  Forall2 (fun league df => loaded_frame disk league = Returned df) loaded frames ->
  load_data disk (loaded ++ rest) w
  = (for_each rest (load_league disk);;
     st_success "✅ Data loaded! Now choose what you’d like to view.")
      {| session_state :=
           store_all (zip (session_key <$> loaded) frames) (session_state w);
         page := page w ++ [EInfo "✅ Scraped with intelligent imagination — fun, free, and powered by Selenium."] |}.
Proof.
  intros Hne Hframes. unfold load_data.
  destruct (loaded ++ rest) as [|l ls] eqn:Hsel; [done|]. rewrite <- Hsel.
  erewrite bind_returned; [|apply emits_emit].
  unfold mbind, M_bind.
  by rewrite (load_loop_commits disk loaded rest frames _ Hframes).
Qed.

(** X2.  Load Data stores the leagues in the order of the selection and
    stops at the first league whose frame cannot be built: the run ends in
    that league's exception, the leagues before it are already in the
    store, the leagues after it are not visited, and neither the success
    message nor the closing lines are shown. *)
Theorem load_stops_at_first_failure (disk : string -> result DataFrame)
  (loaded : list string) (league : string) (rest : list string)
  (frames : list DataFrame) (e : exn) (store : gmap string DataFrame) :
  Forall2 (fun l df => loaded_frame disk l = Returned df) loaded frames ->
  loaded_frame disk league = Raised e ->
  run {| i_disk := disk;
         i_selected := loaded ++ league :: rest;
         i_clicked := Some LoadData |} store
  = ({| session_state := store_all (zip (session_key <$> loaded) frames) store;
        page := shown banner
                ++ [EInfo "✅ Scraped with intelligent imagination — fun, free, and powered by Selenium."] |},
     Raised e).
Proof.
  intros Hframes Hleague. unfold run. cbn [i_disk i_selected i_clicked].
  rewrite script_clicked.
  rewrite (load_data_commits disk loaded (league :: rest) frames) by
    (done || by destruct loaded).
  cbn [session_state page app]. erewrite bind_raised; [reflexivity|].
  cbn [for_each]. erewrite bind_raised; [reflexivity|].
  by rewrite load_league_frame, Hleague.
Qed.

Lemma load_stops_at_first_failure_witness :
  run {| i_disk := sample_disk sample_finals;
         i_selected := ["Premier League"; "Championship"; "League One"];
         i_clicked := Some LoadData |} ∅
  = ({| session_state := sample_store sample_finals;
        page := shown banner
                ++ [EInfo "✅ Scraped with intelligent imagination — fun, free, and powered by Selenium."] |},
     Raised (FileNotFoundError "england_championship-2023-2024_financial_returns.csv")).
Proof.
  rewrite (load_stops_at_first_failure (sample_disk sample_finals)
             ["Premier League"] "Championship" ["League One"]
             [ {| index_len := 2;
                  data := ("league_name", StrCol ["Premier League"; "Premier League"])
                          :: ("season", StrCol ["2023-2024"; "2023-2024"])
                          :: sample_columns sample_finals |} ]
             (FileNotFoundError "england_championship-2023-2024_financial_returns.csv")).
  - vm_compute. reflexivity.
  - repeat constructor.
  - vm_compute. reflexivity.
Defined.

(** X3.  When the frame of every selected league can be built and at
    least one league is selected, Load Data ends without an exception,
    shows the info and the success message between the banner and the
    closing lines, and has assigned each league's frame to the league's
    key, in the order of the selection. *)
Theorem load_stores_every_selected_league (disk : string -> result DataFrame)
  (selected : list string) (frames : list DataFrame)
  (store : gmap string DataFrame) :
  selected <> [] ->
  Forall2 (fun l df => loaded_frame disk l = Returned df) selected frames ->
  run {| i_disk := disk; i_selected := selected; i_clicked := Some LoadData |} store
  = ({| session_state := store_all (zip (session_key <$> selected) frames) store;
        page := shown banner
                ++ [EInfo "✅ Scraped with intelligent imagination — fun, free, and powered by Selenium.";
                    ESuccess "✅ Data loaded! Now choose what you’d like to view."]
                ++ shown closing |},
     Returned tt).
Proof.
  intros Hne Hframes. unfold run. cbn [i_disk i_selected i_clicked].
  rewrite script_clicked.
  rewrite <- (app_nil_r selected) at 1.
  rewrite (load_data_commits disk selected [] frames) by (by rewrite ?app_nil_r).
  cbn [session_state page app for_each].
  erewrite bind_returned; [|apply emits_ret].
  unfold st_success. rewrite (emits_emit (ESuccess _)). cbn [session_state page].
  rewrite emits_closing. cbn [session_state page].
  by rewrite app_nil_r, <- !app_assoc.
Qed.

Lemma load_stores_every_selected_league_witness :
  (run {| i_disk := sample_disk sample_finals;
          i_selected := ["Premier League"];
          i_clicked := Some LoadData |} ∅).2 = Returned tt
  /\ session_state
       (run {| i_disk := sample_disk sample_finals;
               i_selected := ["Premier League"];
               i_clicked := Some LoadData |} ∅).1
     !! "Premier League_df"
     = Some {| index_len := 2;
               data := ("league_name", StrCol ["Premier League"; "Premier League"])
                       :: ("season", StrCol ["2023-2024"; "2023-2024"])
                       :: sample_columns sample_finals |}.
Proof.
  rewrite (load_stores_every_selected_league (sample_disk sample_finals)
             ["Premier League"]
             [ {| index_len := 2;
                  data := ("league_name", StrCol ["Premier League"; "Premier League"])
                          :: ("season", StrCol ["2023-2024"; "2023-2024"])
                          :: sample_columns sample_finals |} ]).
  - split; [reflexivity|]. vm_compute. reflexivity.
  - done.
  - repeat constructor.
Defined.

Lemma final_values_from_ext (df df' : DataFrame) (cols : list string)
  (acc : list (string * cell)) :
  Forall (fun col => final_value df col = final_value df' col) cols ->
  final_values_from df cols acc = final_values_from df' cols acc.
Proof.
  intros H. revert acc. induction H as [|col cols Hcol _ IH]; intros acc; [done|].
  cbn [final_values_from]. rewrite Hcol.
  destruct (final_value df' col) as [v|e]; [|done]. apply IH.
Qed.

Lemma summarise_ext (league : string) (df df' : DataFrame) :
  Forall (fun col => final_value df col = final_value df' col)
         (Py.dict_keys strategy_colors) ->
  summarise league df = summarise league df'.
Proof.
  intros H. unfold summarise, final_values.
  by rewrite (final_values_from_ext df df' _ _ H).
Qed.

Lemma loaded_frame_inv (disk : string -> result DataFrame) (league : string)
  (df : DataFrame) :
  loaded_frame disk league = Returned df ->
  exists file_path df0,
    Py.dict_item league_files league = Returned file_path
    /\ disk file_path = Returned df0
    /\ df = {| index_len := index_len df0;
               data := ("league_name", StrCol (repeat league (index_len df0)))
                       :: ("season", StrCol (repeat "2023-2024" (index_len df0)))
                       :: data df0 |}.
Proof.
  intros Hdf.
  destruct (Py.dict_item league_files league) as [file_path|e] eqn:Hfile.
  2: { unfold loaded_frame in Hdf. by rewrite Hfile in Hdf. }
  pose proof (loaded_frame_by_cases disk league file_path Hfile) as Hcases.
  destruct (disk file_path) as [df0|e] eqn:Hdisk; [|congruence].
  exists file_path, df0. split; [done|]. split; [done|].
  repeat case_bool_decide; congruence.
Qed.

(** X4.  Loading leaves the columns of the file as they are: the stored
    frame has as many rows as the file, is well formed when the file's
    frame is, reads [league_name] and [season] as the league and
    [2023-2024] in every row, reads every other column as the file has
    it, and so has the summary of the file's frame. *)
Theorem loading_keeps_the_file_columns (disk : string -> result DataFrame)
  (league : string) (df : DataFrame) :
  loaded_frame disk league = Returned df ->
  exists file_path df0,
    Py.dict_item league_files league = Returned file_path
    /\ disk file_path = Returned df0
    /\ index_len df = index_len df0
    /\ (well_formed df0 -> well_formed df)
    /\ df_col df "league_name" = Returned (StrCol (repeat league (index_len df0)))
    /\ df_col df "season" = Returned (StrCol (repeat "2023-2024" (index_len df0)))
    /\ (forall col, col <> "league_name" -> col <> "season" ->
                    df_col df col = df_col df0 col)
    /\ (forall l, summarise l df = summarise l df0).
Proof.
  intros (file_path & df0 & Hfile & Hdisk & ->)%loaded_frame_inv.
  exists file_path, df0. split; [done|]. split; [done|]. split; [done|].
  assert (Hcol : forall col, col <> "league_name" -> col <> "season" ->
             df_col {| index_len := index_len df0;
                       data := ("league_name", StrCol (repeat league (index_len df0)))
                               :: ("season", StrCol (repeat "2023-2024" (index_len df0)))
                               :: data df0 |} col
             = df_col df0 col).
  { intros col H1 H2. unfold df_col, Py.dict_item. cbn [data Py.dict_get].
    destruct (String.eqb_spec col "league_name"); [done|].
    by destruct (String.eqb_spec col "season"). }
  split; [|split; [done|split; [done|split; [done|]]]].
  - intros Hwf. unfold well_formed. cbn [data index_len].
    repeat constructor; cbn [snd column_length]; try apply repeat_length.
    exact Hwf.
  - intros l. apply summarise_ext.
    assert (Hnames : Forall (fun col => col <> "league_name" /\ col <> "season")
                            (Py.dict_keys strategy_colors)).
    { repeat constructor; discriminate. }
    eapply Forall_impl; [exact Hnames|].
    intros col [H1 H2]. unfold final_value. by rewrite Hcol.
Qed.

Lemma loading_keeps_the_file_columns_witness :
  summarise "Premier League"
    {| index_len := 2;
       data := ("league_name", StrCol ["Premier League"; "Premier League"])
               :: ("season", StrCol ["2023-2024"; "2023-2024"])
               :: sample_columns sample_finals |}
  = summarise "Premier League" (sample_df sample_finals).
Proof.
  destruct (loading_keeps_the_file_columns (sample_disk sample_finals)
              "Premier League"
              {| index_len := 2;
                 data := ("league_name", StrCol ["Premier League"; "Premier League"])
                         :: ("season", StrCol ["2023-2024"; "2023-2024"])
                         :: sample_columns sample_finals |})
    as (file_path & df0 & Hfile & Hdisk & _ & _ & _ & _ & _ & Hsum).
  - vm_compute. reflexivity.
  - assert (file_path = "england_premier-league-2023-2024_financial_returns.csv") as ->.
    { vm_compute in Hfile. by injection Hfile. }
    vm_compute in Hdisk. injection Hdisk as <-. apply Hsum.
Defined.

(** ** Frames the views cannot read *)

Lemma final_values_from_raised (df : DataFrame) (before : list string)
  (col : string) (after : list string) (e : exn) (acc : list (string * cell)) :
  Forall (fun c => exists v, final_value df c = Returned v) before ->
  final_value df col = Raised e ->
  final_values_from df (before ++ col :: after) acc = Raised e.
Proof.
  intros H He. revert acc. induction H as [|c before [v Hv] _ IH]; intros acc.
  - cbn [app final_values_from]. by rewrite He.
  - cbn [app final_values_from]. rewrite Hv. apply IH.
Qed.

(** X5.  The summariser reads the last value of each of the seven strategy
    columns, a number or a text, before it compares any of them.  It ends
    in the exception of the first column, in the order of
    [strategy_colors], whose last value cannot be read, whatever the
    columns before it hold: [KeyError] with the column's name when the
    frame has no such column.  When all seven are read, it returns a
    record exactly when they are seven numbers or seven texts, and ends in
    the [TypeError] of [max] when there are numbers and texts among
    them. *)
Theorem summarise_needs_the_seven_columns (league : string) (df : DataFrame) :
  ((exists r, summarise league df = Returned r)
   <-> exists vs : list cell,
         Forall2 (fun col v => final_value df col = Returned v)
                 (Py.dict_keys strategy_colors) vs
         /\ same_kind vs = true)
  /\ (forall before col after e,
        Py.dict_keys strategy_colors = before ++ col :: after ->
        Forall (fun c => exists v, final_value df c = Returned v) before ->
        final_value df col = Raised e ->
        summarise league df = Raised e)
  /\ (forall vs : list cell,
        Forall2 (fun col v => final_value df col = Returned v)
                (Py.dict_keys strategy_colors) vs ->
        same_kind vs = false ->
        summarise league df = Raised TypeError)
  /\ (forall col,
        col ∉ column_names df ->
        final_value df col = Raised (KeyError col))
  /\ (forall col vals s,
        df_col df col = Returned (StrCol vals) ->
        vals !! (length vals - 1)%nat = Some s ->
        final_value df col = Returned (CStr s)).
Proof.
  split; [split|split; [|split; [|split]]].
  - intros [r (vs & Hvs & _ & _ & _ & _ & _ & Hkind)%summarise_inv]. by exists vs.
  - intros (vs & Hvs & Hkind).
    pose proof (summarise_kinds league df vs Hvs) as H. by rewrite Hkind in H.
  - intros before col after e Hkeys Hbefore He.
    unfold summarise, final_values. rewrite Hkeys.
    by rewrite (final_values_from_raised df before col after e [] Hbefore He).
  - intros vs Hvs Hkind.
    pose proof (summarise_kinds league df vs Hvs) as H. by rewrite Hkind in H.
  - intros col Hcol. unfold final_value, df_col, Py.dict_item.
    destruct (Py.dict_get (data df) col) as [c|] eqn:Hget; [|done].
    exfalso. apply Hcol. by eapply dict_get_Some_keys.
  - intros col vals s Hcol Hs. unfold final_value. rewrite Hcol.
    cbn [mbind result_bind iloc_last]. by rewrite (index_from_end_last _ _ Hs).
Qed.

(** A file whose first strategy column holds text and whose second is
    missing; and a file with text in the first and numbers in the other
    six. *)
Lemma summarise_needs_the_seven_columns_witness :
  summarise "Premier League"
    {| index_len := 2;
       data := [("home_returns_running_total", StrCol ["n/a"; "n/a"]);
                ("away_returns_running_total", NumCol [num 0; num 20])] |}
  = Raised (KeyError "draw_returns_running_total")
  /\ summarise "Premier League"
       {| index_len := 2;
          data := ("home_returns_running_total", StrCol ["n/a"; "n/a"])
                  :: tail (sample_columns sample_finals) |}
     = Raised TypeError.
Proof.
  split.
  - destruct (summarise_needs_the_seven_columns "Premier League"
                {| index_len := 2;
                   data := [("home_returns_running_total", StrCol ["n/a"; "n/a"]);
                            ("away_returns_running_total", NumCol [num 0; num 20])] |})
      as (_ & Hfirst & _ & Hmissing & Htext).
    apply (Hfirst ["home_returns_running_total"] "draw_returns_running_total"
             ["away_returns_running_total"; "first_choice_returns_running_total";
              "second_choice_returns_running_total";
              "third_choice_returns_running_total";
              "random_choice_1_running_balance"]).
    + reflexivity.
    + repeat constructor. exists (CStr "n/a").
      by apply (Htext _ ["n/a"; "n/a"]).
    + apply Hmissing. unfold column_names. cbn.
      intros H. repeat (apply elem_of_cons in H as [H|H]; [discriminate|]).
      by apply elem_of_nil in H.
  - destruct (summarise_needs_the_seven_columns "Premier League"
                {| index_len := 2;
                   data := ("home_returns_running_total", StrCol ["n/a"; "n/a"])
                           :: tail (sample_columns sample_finals) |})
      as (_ & _ & Hmixed & _).
    apply (Hmixed (CStr "n/a" :: (CNum <$> map num (tail sample_finals)))).
    + repeat constructor.
    + reflexivity.
Defined.

(** X6.  A frame without rows cannot be viewed: plotting it ends in
    [IndexError] at the heading, before anything is shown, and summarising
    it ends in [IndexError] at the first strategy column. *)
Theorem frame_without_rows_raises (league : string) (df : DataFrame) (c : column) :
  index_len df = 0%nat ->
  well_formed df ->
  df_col df "home_returns_running_total" = Returned c ->
  (forall w, plot_league league df w = (w, Raised IndexError))
  /\ summarise league df = Raised IndexError.
Proof.
  intros Hrows Hwf Hcol. split.
  - intros w. unfold plot_league. erewrite bind_raised; [reflexivity|].
    unfold lift, df_first_row_cell. by rewrite Hrows.
  - unfold summarise, final_values.
    change (Py.dict_keys strategy_colors)
      with ([] ++ "home_returns_running_total" :: tail (Py.dict_keys strategy_colors)).
    rewrite (final_values_from_raised df [] "home_returns_running_total"
               (tail (Py.dict_keys strategy_colors)) IndexError []); [done|done|].
    unfold final_value. rewrite Hcol. cbn [mbind result_bind mret result_ret].
    pose proof (df_col_length df _ _ Hwf Hcol) as Hlen.
    destruct c as [vals|vals]; simpl in Hlen; cbn [iloc_last];
      unfold Py.index_from_end;
      (destruct (Nat.ltb_spec (length vals) 1); [done|lia]).
Qed.

Lemma frame_without_rows_raises_witness :
  summarise "Premier League"
    {| index_len := 0;
       data := [("home_returns_running_total", NumCol [])] |}
  = Raised IndexError
  /\ (plot_league "Premier League"
        {| index_len := 0;
           data := [("home_returns_running_total", NumCol [])] |}
        {| session_state := ∅; page := [] |}).2
     = Raised IndexError.
Proof.
  destruct (frame_without_rows_raises "Premier League"
              {| index_len := 0;
                 data := [("home_returns_running_total", NumCol [])] |} (NumCol []))
    as [Hplot Hsum].
  - reflexivity.
  - repeat constructor.
  - reflexivity.
  - split; [exact Hsum|]. by rewrite Hplot.
Defined.

(** ** What a run does to the session store *)

Lemma store_all_cons (key : string) (df : DataFrame)
  (entries : list (string * DataFrame)) (store : gmap string DataFrame) :
  store_all ((key, df) :: entries) store = store_all entries (<[key := df]> store).
Proof. reflexivity. Qed.

Lemma store_all_union (entries : list (string * DataFrame))
  (store : gmap string DataFrame) :
  store_all entries store = list_to_map (reverse entries) ∪ store.
Proof.
  induction entries as [|[key df] entries IH] using rev_ind.
  - unfold store_all. simpl. by rewrite (left_id_L ∅ (∪)).
  - rewrite store_all_snoc, IH, reverse_snoc. cbn [list_to_map foldr].
    by rewrite insert_union_l.
Qed.

Lemma store_all_twice (entries : list (string * DataFrame))
  (store : gmap string DataFrame) :
  store_all entries (store_all entries store) = store_all entries store.
Proof.
  rewrite !store_all_union, (assoc_L (∪)). by rewrite (idemp_L (∪)).
Qed.

Lemma store_all_other (entries : list (string * DataFrame))
  (store : gmap string DataFrame) (key : string) :
  key ∉ entries.*1 ->
  store_all entries store !! key = store !! key.
Proof.
  revert store. induction entries as [|[k df] entries IH]; intros store Hkey; [done|].
  cbn [fmap list_fmap fst] in Hkey. apply not_elem_of_cons in Hkey as [Hne Hkey].
  rewrite store_all_cons, IH by done. by apply lookup_insert_ne.
Qed.

Lemma committed_keys (disk : string -> result DataFrame) (selected : list string)
  (key : string) :
  key ∈ (committed disk selected).*1 -> key ∈ session_key <$> selected.
Proof.
  induction selected as [|league selected IH]; cbn [committed]; [done|].
  destruct (loaded_frame disk league) as [df|e].
  - cbn [fmap list_fmap fst]. rewrite !elem_of_cons. intros [->|Hin]; auto.
  - intros Hin. by apply elem_of_nil in Hin.
Qed.

Lemma load_loop_store (disk : string -> result DataFrame) (selected : list string)
  (w : world) :
  session_state (for_each selected (load_league disk) w).1
  = store_all (committed disk selected) (session_state w).
Proof.
  revert w. induction selected as [|league selected IH]; intros w; [done|].
  cbn [for_each committed]. unfold mbind, M_bind. rewrite load_league_frame.
  destruct (loaded_frame disk league) as [df|e]; [|done].
  by rewrite IH.
Qed.

Lemma page_only_script (disk : string -> result DataFrame)
  (selected : list string) (clicked : option button) :
  clicked <> Some LoadData ->
  page_only (script disk selected clicked).
Proof.
  intros Hclicked. unfold script.
  apply page_only_bind; [eapply emits_page_only, emits_banner|intros _].
  apply page_only_bind; [|intros _].
  { unfold st_button. rewrite bool_decide_eq_false_2 by done. apply page_only_ret. }
  apply page_only_bind; [|intros _].
  { destruct (st_button clicked ViewPlots);
      [apply page_only_view_plots|apply page_only_ret]. }
  apply page_only_bind; [|intros _].
  { destruct (st_button clicked ViewBestWorst);
      [apply page_only_view_best_worst|apply page_only_ret]. }
  eapply emits_page_only, emits_closing.
Qed.

Lemma run_store (i : interaction) (store : gmap string DataFrame) :
  session_state (run i store).1
  = match i_clicked i with
    | Some LoadData => store_all (committed (i_disk i) (i_selected i)) store
    | _ => store
    end.
Proof.
  destruct i as [disk selected clicked]. cbn [i_disk i_selected i_clicked].
  assert (Hother : clicked <> Some LoadData ->
                   session_state
                     (run {| i_disk := disk; i_selected := selected;
                             i_clicked := clicked |} store).1 = store).
  { intros H. unfold run. cbn [i_disk i_selected i_clicked].
    by rewrite (page_only_script disk selected clicked H). }
  destruct clicked as [[]|]; try by apply Hother.
  unfold run. cbn [i_disk i_selected i_clicked]. rewrite script_clicked.
  set (w1 := {| session_state := _; page := _ |}).
  assert (Hload : session_state (load_data disk selected w1).1
                  = store_all (committed disk selected) store).
  { unfold load_data. destruct selected as [|l ls] eqn:Hsel; [done|].
    rewrite <- Hsel. erewrite bind_returned; [|apply emits_emit].
    unfold mbind, M_bind.
    match goal with
    | |- context [for_each selected (load_league disk) ?w2] =>
        pose proof (load_loop_store disk selected w2) as Hloop;
        destruct (for_each selected (load_league disk) w2) as [w3 [[]|e]]
    end; simpl in *; by rewrite Hloop. }
  destruct (load_data disk selected w1) as [w' [[]|e]]; cbn [fst] in Hload;
    cbv beta iota; [|done].
  by rewrite emits_closing.
Qed.

(** X7.  A run in which Load Data is not pressed (a view, or no button)
    never changes the session store, whether it ends in an exception or
    not. *)
Theorem views_never_change_the_store (i : interaction)
  (store : gmap string DataFrame) :
  i_clicked i <> Some LoadData ->
  session_state (run i store).1 = store.
Proof.
  intros H. rewrite run_store. by destruct (i_clicked i) as [[]|].
Qed.

Lemma views_never_change_the_store_witness :
  session_state
    (run {| i_disk := sample_disk sample_finals;
            i_selected := ["Championship"];
            i_clicked := Some ViewBestWorst |} (sample_store sample_finals)).1
  = sample_store sample_finals
  /\ (run {| i_disk := sample_disk sample_finals;
             i_selected := ["Championship"];
             i_clicked := Some ViewBestWorst |} (sample_store sample_finals)).2
     = Raised (KeyError "best_return_column").
Proof.
  split; [|vm_compute; reflexivity].
  by apply (views_never_change_the_store
              {| i_disk := sample_disk sample_finals;
                 i_selected := ["Championship"];
                 i_clicked := Some ViewBestWorst |}).
Defined.

(** X8.  A run touches no entry of the session store but those of the
    selected leagues: every other key reads after the run as before, and
    no key is ever removed. *)
Theorem run_touches_selected_leagues_only (i : interaction)
  (store : gmap string DataFrame) (key : string) :
  (key ∉ session_key <$> i_selected i ->
   session_state (run i store).1 !! key = store !! key)
  /\ (is_Some (store !! key) -> is_Some (session_state (run i store).1 !! key)).
Proof.
  rewrite run_store. split.
  - intros Hkey. destruct (i_clicked i) as [[]|]; try done.
    apply store_all_other. intros Hin. by apply Hkey, (committed_keys (i_disk i)).
  - intros Hsome. destruct (i_clicked i) as [[]|]; try done.
    rewrite store_all_union. apply lookup_union_is_Some. by right.
Qed.

Lemma run_touches_selected_leagues_only_witness :
  session_state
    (run {| i_disk := sample_disk sample_finals;
            i_selected := ["Championship"];
            i_clicked := Some LoadData |} (sample_store sample_finals)).1
  !! session_key "Premier League"
  = sample_store sample_finals !! session_key "Premier League"
  /\ is_Some (sample_store sample_finals !! session_key "Premier League").
Proof.
  destruct (run_touches_selected_leagues_only
              {| i_disk := sample_disk sample_finals;
                 i_selected := ["Championship"];
                 i_clicked := Some LoadData |}
              (sample_store sample_finals) (session_key "Premier League"))
    as [Hsame _].
  split; [|by vm_compute; eexists].
  apply Hsame. cbn. intros H. apply elem_of_cons in H as [H|H]; [discriminate|].
  by apply elem_of_nil in H.
Defined.

(** X9.  Load Data is idempotent: running the same interaction a second
    time, on the store the first run left, leaves that store as it is. *)
Theorem a_run_repeated_changes_nothing (i : interaction)
  (store : gmap string DataFrame) :
  session_state (run i (session_state (run i store).1)).1
  = session_state (run i store).1.
Proof.
  rewrite !run_store. destruct (i_clicked i) as [[]|]; try done.
  apply store_all_twice.
Qed.

(** ** The summary of the loaded leagues *)

Lemma mapM_returned {A B} (f : A -> result B) (l : list A) (k : list B) :
  mapM f l = Returned k -> Forall2 (fun x y => f x = Returned y) l k.
Proof.
  revert k. induction l as [|x l IH]; intros k; cbn [mapM].
  - intros [= <-]. constructor.
  - destruct (f x) as [y|e] eqn:Hy; [|done]. cbn [mbind result_bind].
    destruct (mapM f l) as [k'|e] eqn:Hk'; [|done]. cbn [mbind result_bind].
    intros [= <-]. constructor; [done|by apply IH].
Qed.

Lemma mapM_returns {A B} (f : A -> result B) (l : list A) (k : list B) :
  Forall2 (fun x y => f x = Returned y) l k -> mapM f l = Returned k.
Proof.
  intros H. induction H as [|x y l k Hy _ IH]; [done|].
  cbn [mapM]. by rewrite Hy, IH.
Qed.

Lemma ordinary_not_nan (x : float64) : ordinary x = true -> is_nan x = false.
Proof. by destruct x. Qed.

(** The rows of the table, column by column as lines 164 to 166 build
    them. *)
Lemma display_rows (records : list BestWorstRecord) (rows : list display_row) :
  mapM display_of records = Returned rows ->
  mapM format_pounds (map best_return records) = Returned (map dr_best_return rows)
  /\ mapM format_pounds (map worst_return records)
     = Returned (map dr_worst_return rows)
  /\ zip_with (fun nb dw =>
                 {| dr_league_name := nb.1.1;
                    dr_best_return := nb.1.2;
                    dr_best_return_column_desc := nb.2;
                    dr_worst_return := dw.1;
                    dr_worst_return_column_desc := dw.2 |})
              (zip (zip (map league_name records) (map dr_best_return rows))
                   (map (Py.dict_get column_name_map)
                        (map best_return_column records)))
              (zip (map dr_worst_return rows)
                   (map (Py.dict_get column_name_map)
                        (map worst_return_column records)))
     = rows.
Proof.
  intros H%mapM_returned.
  induction H as [|r row records rows Hrow _ (IH1 & IH2 & IH3)]; [done|].
  unfold display_of in Hrow.
  destruct (format_pounds (best_return r)) as [b|e] eqn:Hb; [|done].
  destruct (format_pounds (worst_return r)) as [w|e] eqn:Hw; [|done].
  injection Hrow as <-.
  cbn [map mapM zip_with zip dr_best_return dr_worst_return fst snd].
  rewrite Hb, Hw, IH1, IH2. cbn [mbind result_bind mret result_ret].
  split; [done|]. split; [done|]. f_equal. exact IH3.
Qed.

(** What the summary shows for at least one record, when the returns of
    every record are numbers. *)
Lemma show_summary_emits (r : BestWorstRecord) (rs : list BestWorstRecord)
  (rows : list display_row) :
  mapM display_of (r :: rs) = Returned rows ->
  exists best worst,
    emits (show_summary (r :: rs))
          ([EWrite "### Best & Worst Returns (From Current Loaded Leagues)";
            EDataframe rows;
            EWrite "### ✅ Best Return Per League";
            EBarChart best]
           ++ shown summary_key
           ++ [EWrite "### ❌ Worst Return Per League"; EBarChart worst]
           ++ shown summary_key)
    /\ bc_x best = map league_name (r :: rs)
    /\ bc_height best = map best_return (r :: rs)
    /\ bc_color best = map (fun x => bar_color (best_return_column x)) (r :: rs)
    /\ bc_x worst = map league_name (r :: rs)
    /\ bc_height worst = map worst_return (r :: rs)
    /\ bc_color worst = map (fun x => bar_color (worst_return_column x)) (r :: rs).
Proof.
  intros (Hbest & Hworst & Hrows)%display_rows.
  eexists _, _. split.
  - intros w. unfold show_summary.
    do 5 (erewrite bind_returned; [|reflexivity]).
    erewrite bind_returned; [|unfold lift; by rewrite Hbest].
    erewrite bind_returned; [|unfold lift; by rewrite Hworst].
    rewrite Hrows.
    apply (emits_seq _ _ [_] _ (emits_emit _)).
    apply (emits_seq _ _ [_] _ (emits_emit _)).
    apply (emits_seq _ _ [_] _ (emits_emit _)).
    apply (emits_seq _ _ [_] _ (emits_emit _)).
    apply (emits_seq _ _ _ _ emits_summary_key).
    apply (emits_seq _ _ [_] _ (emits_emit _)).
    apply (emits_seq _ _ [_] _ (emits_emit _)).
    apply emits_summary_key.
  - cbn [bc_x bc_height bc_color]. by rewrite !map_map.
Qed.

(** A record whose returns are numbers has a row. *)
Lemma display_of_numbers (r : BestWorstRecord) (best worst : float64) :
  best_return r = CNum best ->
  worst_return r = CNum worst ->
  display_of r
  = Returned {| dr_league_name := league_name r;
                dr_best_return := "£" +:+ format_2f best;
                dr_best_return_column_desc :=
                  Py.dict_get column_name_map (best_return_column r);
                dr_worst_return := "£" +:+ format_2f worst;
                dr_worst_return_column_desc :=
                  Py.dict_get column_name_map (worst_return_column r) |}.
Proof. intros Hb Hw. unfold display_of. by rewrite Hb, Hw. Qed.

(** X10.  When at least one selected league is loaded and the seven
    strategy columns of every loaded selected league end in an ordinary
    amount (a number below 2^53 in size), the summary action ends without
    an exception and leaves the store alone; it shows one table with one
    row per loaded selected league, in the order of the selection, each row
    with the league's best and worst return as pounds with two decimals and
    a description for both; and two bar charts, of the best and of the
    worst returns, with one bar per such league in the same order. *)
Theorem summary_of_the_loaded_leagues (disk : string -> result DataFrame)
  (selected : list string) (store : gmap string DataFrame) :
  loaded_datasets selected store <> [] ->
  Forall (fun ld => exists finals : list float64,
                      Forall2 (fun col v => final_value ld.2 col = Returned (CNum v))
                              (Py.dict_keys strategy_colors) finals
                      /\ Forall (fun v => ordinary v = true) finals)
         (loaded_datasets selected store) ->
  exists (records : list BestWorstRecord) (rows : list display_row) p,
    mapM (fun ld => summarise ld.1 ld.2) (loaded_datasets selected store)
    = Returned records
    /\ mapM display_of records = Returned rows
    /\ run {| i_disk := disk; i_selected := selected;
              i_clicked := Some ViewBestWorst |} store
       = ({| session_state := store; page := p |}, Returned tt)
    /\ map league_name records = (loaded_datasets selected store).*1
    /\ dataframes p = [rows]
    /\ Forall2 (fun r row =>
                  exists best worst : float64,
                    best_return r = CNum best
                    /\ worst_return r = CNum worst
                    /\ dr_league_name row = league_name r
                    /\ dr_best_return row = "£" +:+ format_2f best
                    /\ dr_worst_return row = "£" +:+ format_2f worst
                    /\ is_Some (dr_best_return_column_desc row)
                    /\ is_Some (dr_worst_return_column_desc row))
               records rows
    /\ map bc_x (bar_charts p) = [map league_name records; map league_name records]
    /\ map bc_height (bar_charts p)
       = [map best_return records; map worst_return records]
    /\ map bc_color (bar_charts p)
       = [map (fun r => bar_color (best_return_column r)) records;
          map (fun r => bar_color (worst_return_column r)) records].
Proof.
  intros Hloaded Hnumbers.
  assert (Hrecords : exists records rows,
             Forall2 (fun ld r => summarise ld.1 ld.2 = Returned r)
                     (loaded_datasets selected store) records
             /\ Forall2 (fun r row =>
                           display_of r = Returned row
                           /\ exists best worst : float64,
                                best_return r = CNum best
                                /\ worst_return r = CNum worst
                                /\ dr_league_name row = league_name r
                                /\ dr_best_return row = "£" +:+ format_2f best
                                /\ dr_worst_return row = "£" +:+ format_2f worst
                                /\ is_Some (dr_best_return_column_desc row)
                                /\ is_Some (dr_worst_return_column_desc row))
                        records rows).
  { clear Hloaded.
    induction Hnumbers as [|[l df] lds (finals & Hfinals & Hord) _ (records & rows & IH1 & IH2)].
    { exists [], []. split; constructor. }
    cbn [fst snd] in Hfinals.
    assert (Hnan : Forall (fun v => is_nan v = false) finals).
    { eapply Forall_impl; [exact Hord|]. apply ordinary_not_nan. }
    destruct (summarise_numbers l df finals Hfinals Hnan)
      as (r & best & worst & i & k & Hr & _ & Hb & Hw & Hi & _ & _ & Hk & _ & _).
    eexists (r :: records), (_ :: rows). split; [by constructor|].
    constructor; [|exact IH2]. split; [by apply display_of_numbers|].
    exists best, worst.
    cbn [dr_league_name dr_best_return dr_worst_return
         dr_best_return_column_desc dr_worst_return_column_desc].
    do 5 (split; [done|]).
    split; apply dict_get_keys; by eapply list_elem_of_lookup_2. }
  destruct Hrecords as (records & rows & Hsum & Hrows).
  assert (Hdisplay : mapM display_of records = Returned rows).
  { apply mapM_returns. eapply Forall2_impl; [exact Hrows|]. by intros r row [? _]. }
  pose proof (mapM_returns _ _ _ Hsum) as HmapM.
  destruct records as [|r rs].
  { apply Forall2_nil_inv_r in Hsum. done. }
  destruct (show_summary_emits r rs rows Hdisplay)
    as (best & worst & Hshow & Hbx & Hbh & Hbc & Hwx & Hwh & Hwc).
  exists (r :: rs), rows. eexists.
  split; [done|]. split; [done|]. split; [|split; [|split; [|split]]].
  - unfold run. cbn [i_disk i_selected i_clicked]. rewrite script_clicked.
    rewrite view_best_worst_run. cbn [session_state page app].
    cbv zeta. rewrite HmapM, Hshow. cbn [session_state page].
    rewrite emits_closing. cbn [session_state page]. reflexivity.
  - clear -Hsum. induction Hsum as [|[l df] x lds xs Hx _ IH]; [done|].
    cbn [map fmap list_fmap fst]. f_equal; [|exact IH].
    cbn [fst snd] in Hx. by apply summarise_inv in Hx as (_ & _ & Hl & _).
  - reflexivity.
  - eapply Forall2_impl; [exact Hrows|]. by intros x row [_ ?].
  - match goal with
    | |- map bc_x (bar_charts ?p) = _ /\ _ =>
        assert (bar_charts p = [best; worst]) as -> by reflexivity
    end.
    cbn [map]. by rewrite Hbx, Hbh, Hbc, Hwx, Hwh, Hwc.
Qed.

Lemma summary_of_the_loaded_leagues_witness :
  exists p,
    run {| i_disk := sample_disk sample_finals;
           i_selected := ["Championship"; "Premier League"];
           i_clicked := Some ViewBestWorst |} (sample_store sample_finals)
    = ({| session_state := sample_store sample_finals; page := p |}, Returned tt)
    /\ dataframes p
       = [[ {| dr_league_name := "Premier League";
               dr_best_return := "£20.00";
               dr_best_return_column_desc := Some "£10 bet on every away win";
               dr_worst_return := "£-20.00";
               dr_worst_return_column_desc := Some "£10 on Le Underdog (highest odds)" |} ]].
Proof.
  destruct (summary_of_the_loaded_leagues (sample_disk sample_finals)
              ["Championship"; "Premier League"] (sample_store sample_finals))
    as (records & rows & p & Hsum & Hrows & Hrun & _ & Htable & _).
  - vm_compute. discriminate.
  - apply Forall_forall. intros [l df] Hin. vm_compute in Hin.
    apply list_elem_of_singleton in Hin. injection Hin as -> ->.
    exists (map num sample_finals). split; repeat constructor.
  - exists p. split; [exact Hrun|]. rewrite Htable. f_equal.
    vm_compute in Hsum. injection Hsum as <-.
    vm_compute in Hrows. by injection Hrows as <-.
Defined.

(** ** The chart of a frame *)

Lemma strategy_color_items :
  Forall (fun cc => Py.dict_item strategy_colors cc.1 = Returned cc.2) strategy_colors.
Proof. repeat constructor; vm_compute; reflexivity. Qed.

Lemma missing_columns_none (df : DataFrame) (names : list string) :
  Forall (fun col => exists c, df_col df col = Returned c) names ->
  missing_columns df names = [].
Proof.
  intros H. unfold missing_columns.
  induction H as [|col names [c Hc] _ IH]; [done|].
  cbn [List.filter]. rewrite existsb_eqb_elem_of, bool_decide_eq_true_2; [done|].
  unfold df_col, Py.dict_item in Hc.
  destruct (Py.dict_get (data df) col) eqn:Hget; [|done].
  by eapply dict_get_Some_keys.
Qed.

Lemma num_cols_returns (df : DataFrame) (names : list string)
  (cols : list (list float64)) :
  Forall2 (fun col vals => df_col df col = Returned (NumCol vals)) names cols ->
  num_cols df names = Returned cols.
Proof.
  intros H. unfold num_cols, df_select.
  rewrite missing_columns_none.
  2: { eapply Forall2_Forall_l; [exact H|]. apply Forall_forall. intros; by eexists. }
  rewrite (mapM_returns (df_col df) names (NumCol <$> cols)).
  2: { by apply Forall2_fmap_r. }
  cbn [mbind result_bind]. apply mapM_returns.
  apply Forall2_fmap_l, Forall2_same_length_lookup_2; [done|].
  intros i x y Hx Hy. cbn. congruence.
Qed.

Lemma plot_series_returns (df : DataFrame) (cs : list (string * string))
  (cols : list (list float64)) :
  Forall (fun cc => Py.dict_item strategy_colors cc.1 = Returned cc.2) cs ->
  Forall2 (fun col vals => df_col df col = Returned (NumCol vals)) (map fst cs) cols ->
  plot_series df (map fst cs)
  = Returned (zip_with (fun cc vals => (cc.1, cc.2, vals)) cs cols).
Proof.
  intros Hcs. revert cols. induction Hcs as [|cc cs Hcc _ IH]; intros cols Hcols.
  - by apply Forall2_nil_inv_l in Hcols as ->.
  - cbn [map] in Hcols.
    apply Forall2_cons_inv_l in Hcols as (vals & cols' & Hcol & Hcols & ->).
    cbn [map plot_series]. rewrite Hcol.
    cbn [mbind result_bind mret result_ret numbers]. rewrite Hcc.
    cbn [mbind result_bind]. by rewrite (IH _ Hcols).
Qed.

Lemma emits_strategy_key :
  emits (for_each (Py.dict_keys strategy_colors) strategy_key_entry)
        (shown (for_each (Py.dict_keys strategy_colors) strategy_key_entry)).
Proof.
  assert (exists es, emits (for_each (Py.dict_keys strategy_colors) strategy_key_entry) es)
    as [es Hes].
  { eexists. cbn [Py.dict_keys strategy_colors map fst for_each].
    repeat (apply emits_seq;
            [intros w; unfold strategy_key_entry;
             erewrite bind_returned; [|unfold lift; f_equal; vm_compute; reflexivity];
             erewrite bind_returned; [|unfold lift; f_equal; vm_compute; reflexivity];
             apply (emits_emit _ w)|]).
    apply emits_ret. }
  by rewrite (emits_shown _ _ Hes).
Qed.

(** ** Largest and smallest of the plotted values *)

Section Fold.

(** [worse m v]: the value [v] replaces the running [m]. *)
Variable worse : float64 -> float64 -> bool.
Variable le : float64 -> float64 -> bool.
Hypothesis worse_le : forall m v,
  worse m v = true -> is_nan v = false /\ le m v = true.
Hypothesis not_worse_le : forall m v,
  is_nan m = false -> is_nan v = false -> worse m v = false -> le v m = true.
Hypothesis le_refl : forall a, is_nan a = false -> le a a = true.
Hypothesis le_trans : forall a b c, le a b = true -> le b c = true -> le a c = true.

Let step (m v : float64) : float64 :=
  if is_nan m then v else if worse m v then v else m.

Lemma foldl_step_bound (l : list float64) (m : float64) :
  (is_nan m = false ->
   is_nan (foldl step m l) = false /\ le m (foldl step m l) = true)
  /\ (forall v, v ∈ l -> is_nan v = false ->
                is_nan (foldl step m l) = false /\ le v (foldl step m l) = true).
Proof.
  revert m. induction l as [|y l IH]; intros m; cbn [foldl].
  - split; [by intros Hm; split; [|apply le_refl]|by intros v ?%elem_of_nil].
  - destruct (IH (step m y)) as [IHm IHl]. split.
    + intros Hm. unfold step in IHm |- *. rewrite Hm in IHm |- *.
      destruct (worse m y) eqn:Hw.
      * destruct (worse_le _ _ Hw) as [Hy Hle].
        destruct (IHm Hy) as [? ?]. split; [done|by eapply le_trans].
      * exact (IHm Hm).
    + intros v [->|Hv]%elem_of_cons Hnan; [|by apply IHl].
      assert (is_nan (step m y) = false /\ le y (step m y) = true) as [Hs Hle].
      { unfold step. destruct (is_nan m) eqn:Hm; [by split; [|apply le_refl]|].
        destruct (worse m y) eqn:Hw; [by split; [|apply le_refl]|].
        split; [done|by apply not_worse_le]. }
      destruct (IHm Hs) as [? ?]. split; [done|by eapply le_trans].
Qed.

End Fold.

Lemma maximum_bound (l : list float64) (v : float64) :
  v ∈ l -> is_nan v = false ->
  is_nan (maximum l) = false /\ float_leb v (maximum l) = true.
Proof.
  apply (foldl_step_bound float_ltb float_leb).
  - intros m y H. split; [by apply float_ltb_not_nan in H as [_ ?]|].
    by apply float_ltb_leb.
  - intros m y Hm Hy H. by rewrite float_leb_ltb, H.
  - apply float_leb_refl.
  - apply float_leb_trans.
Qed.

Lemma minimum_bound (l : list float64) (v : float64) :
  v ∈ l -> is_nan v = false ->
  is_nan (minimum l) = false /\ float_leb (minimum l) v = true.
Proof.
  apply (foldl_step_bound (fun m y => float_ltb y m) (fun a b => float_leb b a)).
  - intros m y H. split; [by apply float_ltb_not_nan in H as [? _]|].
    by apply float_ltb_leb.
  - intros m y Hm Hy H. by rewrite float_leb_ltb, H.
  - apply float_leb_refl.
  - intros a b c H1 H2. by eapply float_leb_trans.
Qed.

(** The band of the chart, from the smallest to the largest of the seven
    columns' smallest and largest values, holds every value that is not
    NaN. *)
Lemma band_bounds (cols : list (list float64)) (vals : list float64) (v : float64) :
  vals ∈ cols -> v ∈ vals -> is_nan v = false ->
  float_leb (minimum (map minimum cols)) v = true
  /\ float_leb v (maximum (map maximum cols)) = true.
Proof.
  intros Hvals Hv Hnan.
  destruct (maximum_bound vals v Hv Hnan) as [Htop Hle].
  destruct (minimum_bound vals v Hv Hnan) as [Hbottom Hge].
  destruct (maximum_bound (map maximum cols) (maximum vals)) as [_ Hmax];
    [by apply list_elem_of_fmap_2|done|].
  destruct (minimum_bound (map minimum cols) (minimum vals)) as [_ Hmin];
    [by apply list_elem_of_fmap_2|done|].
  split; by eapply float_leb_trans.
Qed.

(** The chart of a frame with a first row, a season and the seven numeric
    strategy columns. *)
Lemma plot_league_returns (league : string) (df : DataFrame) (w : world)
  (season : cell) (cols : list (list float64)) :
  df_first_row_cell df "season" = Returned season ->
  Forall2 (fun col vals => df_col df col = Returned (NumCol vals))
          (Py.dict_keys strategy_colors) cols ->
  plot_league league df w
  = ({| session_state := session_state w;
        page := page w
                ++ [EFixtureHeading league season;
                    ELineChart
                      {| lc_title := (league, season);
                         lc_span_top := maximum (map maximum cols);
                         lc_span_bottom := minimum (map minimum cols);
                         lc_series :=
                           zip_with (fun cc vals => (cc.1, cc.2, vals))
                                    strategy_colors cols;
                         lc_xlim_right := Z.of_nat (index_len df) - 1 |};
                    EMarkdown "---";
                    EWrite "### Strategy Key:"]
                ++ shown (for_each (Py.dict_keys strategy_colors) strategy_key_entry)
                ++ [EMarkdown "---"] |},
     Returned tt).
Proof.
  intros Hseason Hcols. unfold plot_league.
  erewrite bind_returned; [|unfold lift; by rewrite Hseason].
  erewrite bind_returned; [|apply emits_emit].
  erewrite bind_returned; [|unfold lift; by rewrite (num_cols_returns _ _ _ Hcols)].
  erewrite bind_returned.
  2: { unfold lift, Py.dict_keys.
       by rewrite (plot_series_returns df strategy_colors cols strategy_color_items Hcols). }
  erewrite bind_returned; [|unfold lift; by rewrite Hseason].
  erewrite bind_returned; [|apply emits_emit].
  erewrite bind_returned; [|apply emits_emit].
  erewrite bind_returned; [|apply emits_emit].
  erewrite bind_returned; [|apply emits_strategy_key].
  unfold st_markdown. rewrite (emits_emit (EMarkdown "---")).
  cbn [session_state page]. by rewrite <- !app_assoc.
Qed.

(** X11.  A frame with at least one row, a [season] column and the seven
    strategy columns holding finite numbers is plotted without an
    exception: a heading and one chart titled with the league and the
    season of the first row, the seven series in the order and the colours
    of [strategy_colors], an x axis ending at the last row, and a shaded band
    from the smallest to the largest value that holds every plotted point;
    then the key of the seven strategies. *)
Theorem plot_of_a_frame (league : string) (df : DataFrame) (w : world)
  (season : cell) (cols : list (list float64)) :
  df_first_row_cell df "season" = Returned season ->
  Forall2 (fun col vals => df_col df col = Returned (NumCol vals))
          (Py.dict_keys strategy_colors) cols ->
  Forall (Forall (fun v => is_finite v = true)) cols ->
  exists fig,
    plot_league league df w
    = ({| session_state := session_state w;
          page := page w
                  ++ [EFixtureHeading league season; ELineChart fig;
                      EMarkdown "---"; EWrite "### Strategy Key:"]
                  ++ map (fun cd => EStrategyKey cd.1.2 cd.2)
                         (zip strategy_colors label_dict.*2)
                  ++ [EMarkdown "---"] |},
       Returned tt)
    /\ lc_title fig = (league, season)
    /\ map (fun s => s.1) (lc_series fig) = strategy_colors
    /\ map (fun s => s.2) (lc_series fig) = cols
    /\ lc_xlim_right fig = Z.of_nat (index_len df) - 1
    /\ (forall vals v,
          vals ∈ cols -> v ∈ vals ->
          float_leb (lc_span_bottom fig) v = true
          /\ float_leb v (lc_span_top fig) = true).
Proof.
  intros Hseason Hcols Hfinite. eexists.
  split; [|split; [|split; [|split; [|split]]]].
  - rewrite (plot_league_returns league df w season cols Hseason Hcols).
    reflexivity.
  - reflexivity.
  - cbn [lc_series]. apply Forall2_length in Hcols.
    change (length (Py.dict_keys strategy_colors)) with 7%nat in Hcols.
    do 7 (destruct cols as [|?vals cols]; [discriminate|]).
    by destruct cols.
  - cbn [lc_series]. apply Forall2_length in Hcols.
    change (length (Py.dict_keys strategy_colors)) with 7%nat in Hcols.
    do 7 (destruct cols as [|?vals cols]; [discriminate|]).
    by destruct cols.
  - reflexivity.
  - intros vals v Hvals Hv. cbn [lc_span_top lc_span_bottom].
    apply (band_bounds cols vals v Hvals Hv), is_finite_not_nan.
    rewrite Forall_forall in Hfinite. specialize (Hfinite vals Hvals).
    rewrite Forall_forall in Hfinite. by apply Hfinite.
Qed.

Lemma plot_of_a_frame_witness :
  exists fig,
    line_charts
      (page (plot_league "Premier League"
               {| index_len := 2;
                  data := ("league_name", StrCol ["Premier League"; "Premier League"])
                          :: ("season", StrCol ["2023-2024"; "2023-2024"])
                          :: sample_columns sample_finals |}
               {| session_state := ∅; page := [] |}).1) = [fig]
    /\ lc_title fig = ("Premier League", CStr "2023-2024")
    /\ lc_span_top fig = num 20
    /\ lc_span_bottom fig = num (-20)
    /\ lc_xlim_right fig = 1.
Proof.
  destruct (plot_of_a_frame "Premier League"
              {| index_len := 2;
                 data := ("league_name", StrCol ["Premier League"; "Premier League"])
                         :: ("season", StrCol ["2023-2024"; "2023-2024"])
                         :: sample_columns sample_finals |}
              {| session_state := ∅; page := [] |}
              (CStr "2023-2024")
              (map (fun v => [num 0; num v]) sample_finals))
    as (fig & Hplot & Htitle & _ & _ & Hxlim & _).
  - reflexivity.
  - repeat constructor.
  - by repeat constructor.
  - eexists. split; [vm_compute; reflexivity|].
    repeat split; vm_compute; reflexivity.
Defined.

Lemma line_charts_app (p es : list element) :
  line_charts (p ++ es) = line_charts p ++ line_charts es.
Proof. apply omap_app. Qed.

Lemma tagged_first_row (league season : string) (df : DataFrame) :
  tagged league season df ->
  (0 < index_len df)%nat ->
  df_first_row_cell df "season" = Returned (CStr season)
  /\ df_first_row_cell df "league_name" = Returned (CStr league).
Proof.
  intros [rest Hdata] Hrows. unfold df_first_row_cell, df_col, Py.dict_item.
  rewrite Hdata. destruct (index_len df) as [|n]; [lia|].
  split; reflexivity.
Qed.

Lemma plot_loop_returns (season : string) (lds : list (string * DataFrame))
  (w : world) :
  Forall (fun ld => df_first_row_cell ld.2 "season" = Returned (CStr season)
                    /\ exists cols : list (list float64),
                         Forall2 (fun col vals => df_col ld.2 col = Returned (NumCol vals))
                                 (Py.dict_keys strategy_colors) cols) lds ->
  exists w',
    for_each lds (fun ld => plot_league ld.1 ld.2) w = (w', Returned tt)
    /\ session_state w' = session_state w
    /\ map lc_title (line_charts (page w'))
       = map lc_title (line_charts (page w))
         ++ map (fun ld => (ld.1, CStr season)) lds.
Proof.
  intros H. revert w. induction H as [|[league df] lds [Hseason [cols Hcols]] _ IH];
    intros w.
  - exists w. by rewrite app_nil_r.
  - cbn [fst snd] in *. cbn [for_each fst snd].
    erewrite bind_returned; [|by apply plot_league_returns].
    match goal with
    | |- context [for_each lds _ ?w1] => destruct (IH w1) as (w' & Hrun & Hstate & Hcharts)
    end.
    exists w'. split; [done|]. split; [done|].
    rewrite Hcharts. cbn [page]. rewrite line_charts_app, map_app, <- app_assoc.
    reflexivity.
Qed.

(** X12.  In a session, when every loaded selected league has at least one
    row and the seven strategy columns holding finite numbers, the plot
    action ends without an exception, leaves the store alone and shows one
    chart per loaded selected league, in the order of the selection, each
    titled with its league and the season [2023-2024] the loader gave
    it. *)
Theorem loaded_leagues_are_plotted (runs : list interaction)
  (disk : string -> result DataFrame) (selected : list string) :
  Forall (fun ld => (0 < index_len ld.2)%nat
                    /\ exists cols : list (list float64),
                         Forall2 (fun col vals => df_col ld.2 col = Returned (NumCol vals))
                                 (Py.dict_keys strategy_colors) cols
                         /\ Forall (Forall (fun v => is_finite v = true)) cols)
         (loaded_datasets selected (session runs)) ->
  exists p,
    run {| i_disk := disk; i_selected := selected; i_clicked := Some ViewPlots |}
        (session runs)
    = ({| session_state := session runs; page := p |}, Returned tt)
    /\ map lc_title (line_charts p)
       = map (fun ld => (ld.1, CStr "2023-2024"))
             (loaded_datasets selected (session runs)).
Proof.
  intros Hall.
  assert (Hplot : Forall (fun ld =>
             df_first_row_cell ld.2 "season" = Returned (CStr "2023-2024")
             /\ exists cols : list (list float64),
                  Forall2 (fun col vals => df_col ld.2 col = Returned (NumCol vals))
                          (Py.dict_keys strategy_colors) cols)
            (loaded_datasets selected (session runs))).
  { apply Forall_forall. intros [league df] Hin.
    rewrite Forall_forall in Hall.
    destruct (Hall _ Hin) as [Hrows (cols & Hcols & _)].
    split; [|by exists cols].
    apply list_elem_of_omap in Hin as (l & _ & Hl).
    destruct (session runs !! session_key l) as [df'|] eqn:Hdf; [|done].
    injection Hl as <- <-.
    destruct (session_store_of_leagues runs _ _ Hdf) as (l' & _ & _ & Htagged).
    by apply (tagged_first_row l' "2023-2024"). }
  unfold run. cbn [i_disk i_selected i_clicked].
  rewrite script_clicked, view_plots_run. cbn [session_state page app].
  match goal with
  | |- context [for_each _ _ ?w1] =>
      destruct (plot_loop_returns "2023-2024" _ w1 Hplot)
        as (w' & Hrun & Hstate & Hcharts)
  end.
  rewrite Hrun, emits_closing. cbn [session_state page] in Hstate, Hcharts.
  eexists. split; [by rewrite Hstate|].
  rewrite line_charts_app, map_app, Hcharts.
  change (line_charts (shown closing)) with (@nil line_chart).
  by rewrite app_nil_r.
Qed.

Lemma loaded_leagues_are_plotted_witness :
  exists p,
    run {| i_disk := sample_disk sample_finals;
           i_selected := ["Championship"; "Premier League"];
           i_clicked := Some ViewPlots |}
        (session [ {| i_disk := sample_disk sample_finals;
                      i_selected := ["Premier League"];
                      i_clicked := Some LoadData |} ])
    = ({| session_state :=
            session [ {| i_disk := sample_disk sample_finals;
                         i_selected := ["Premier League"];
                         i_clicked := Some LoadData |} ];
          page := p |}, Returned tt)
    /\ map lc_title (line_charts p) = [("Premier League", CStr "2023-2024")].
Proof.
  destruct (loaded_leagues_are_plotted
              [ {| i_disk := sample_disk sample_finals;
                   i_selected := ["Premier League"];
                   i_clicked := Some LoadData |} ]
              (sample_disk sample_finals) ["Championship"; "Premier League"])
    as (p & Hrun & Hcharts).
  - apply Forall_forall. intros [l df] Hin. vm_compute in Hin.
    apply list_elem_of_singleton in Hin. injection Hin as -> ->.
    split; [simpl; lia|].
    exists (map (fun v => [num 0; num v]) sample_finals).
    split; [repeat constructor|by repeat constructor].
  - exists p. split; [exact Hrun|]. rewrite Hcharts. vm_compute. reflexivity.
Defined.

(** ** From the files to the views *)

Lemma summarise_tagged (league l season : string) (df df0 : DataFrame) :
  data df = ("league_name", StrCol (repeat league (index_len df0)))
            :: ("season", StrCol (repeat season (index_len df0)))
            :: data df0 ->
  summarise l df = summarise l df0.
Proof.
  intros Hdata. apply summarise_ext.
  assert (Hnames : Forall (fun col => col <> "league_name" /\ col <> "season")
                          (Py.dict_keys strategy_colors)).
  { repeat constructor; discriminate. }
  eapply Forall_impl; [exact Hnames|].
  intros col [H1 H2]. unfold final_value, df_col, Py.dict_item.
  rewrite Hdata. cbn [Py.dict_get].
  destruct (String.eqb_spec col "league_name"); [done|].
  by destruct (String.eqb_spec col "season").
Qed.

(** X13.  After a Load Data run that ends without an exception, the
    summary of every selected league, taken from the session store, is the
    summary of the frame read from the league's file: its best and worst
    returns come from the last row of the file. *)
Theorem summary_after_load_is_the_files (runs : list interaction)
  (i : interaction) (league : string) :
  i_clicked i = Some LoadData ->
  league ∈ i_selected i ->
  (run i (session runs)).2 = Returned tt ->
  exists file_path df0 df,
    Py.dict_item league_files league = Returned file_path
    /\ i_disk i file_path = Returned df0
    /\ session (runs ++ [i]) !! session_key league = Some df
    /\ summarise league df = summarise league df0.
Proof.
  destruct i as [disk selected clicked]. cbn [i_disk i_selected i_clicked].
  intros -> Hin Hret.
  destruct selected as [|l selected]; [by apply elem_of_nil in Hin|].
  destruct (load_run_returned disk l selected (session runs) Hret)
    as (w & w' & Hloop & Hw & Hstate).
  destruct (load_loop_loaded disk _ w w' league Hloop Hin)
    as (file_path & df0 & df & H1 & H2 & H3 & H4 & H5).
  exists file_path, df0, df. rewrite session_snoc, Hstate.
  repeat split; try done. by eapply summarise_tagged.
Qed.

Lemma summary_after_load_is_the_files_witness :
  exists df,
    sample_store sample_finals !! session_key "Premier League" = Some df
    /\ summarise "Premier League" df
       = Returned {| league_name := "Premier League";
                     best_return := CNum (num 20);
                     best_return_column := "away_returns_total";
                     worst_return := CNum (num (-20));
                     worst_return_column := "third_choice_returns_total" |}.
Proof.
  destruct (summary_after_load_is_the_files []
              {| i_disk := sample_disk sample_finals;
                 i_selected := ["Premier League"];
                 i_clicked := Some LoadData |} "Premier League")
    as (file_path & df0 & df & Hfile & Hdisk & Hkey & Hsum).
  - reflexivity.
  - apply elem_of_cons. by left.
  - vm_compute. reflexivity.
  - exists df. split; [exact Hkey|]. rewrite Hsum.
    assert (file_path = "england_premier-league-2023-2024_financial_returns.csv") as ->.
    { vm_compute in Hfile. by injection Hfile. }
    vm_compute in Hdisk. injection Hdisk as <-. vm_compute. reflexivity.
Defined.

Lemma preserves_script_by_loader (P : gmap string DataFrame -> Prop)
  (disk : string -> result DataFrame) (selected : list string)
  (clicked : option button) :
  (forall league, preserves P (load_league disk league)) ->
  preserves P (script disk selected clicked).
Proof.
  intros Hload. unfold script.
  apply preserves_bind;
    [eapply preserves_page_only, emits_page_only, emits_banner|intros _].
  apply preserves_bind; [|intros _].
  { destruct (st_button clicked LoadData); [|by intros w].
    unfold load_data. destruct selected as [|league selected].
    - apply preserves_page_only, page_only_emit.
    - apply preserves_bind; [apply preserves_page_only, page_only_emit|intros _].
      apply preserves_bind; [|intros _; apply preserves_page_only, page_only_emit].
      by apply preserves_for_each. }
  apply preserves_bind; [|intros _].
  { destruct (st_button clicked ViewPlots); [|by intros w].
    apply preserves_page_only, page_only_view_plots. }
  apply preserves_bind; [|intros _].
  { destruct (st_button clicked ViewBestWorst); [|by intros w].
    apply preserves_page_only, page_only_view_best_worst. }
  eapply preserves_page_only, emits_page_only, emits_closing.
Qed.

(** X14.  When the files of every run hold well-formed frames (every
    column as long as the index), every data set of the session store is
    well formed: the two columns the loader adds are as long as the
    index. *)
Theorem session_frames_are_well_formed (runs : list interaction) :
  Forall (fun i => forall file_path df0,
                     i_disk i file_path = Returned df0 -> well_formed df0) runs ->
  forall key df, session runs !! key = Some df -> well_formed df.
Proof.
  induction runs as [|i runs IH] using rev_ind; intros Hdisks key df Hkey.
  - change (session []) with (∅ : gmap string DataFrame) in Hkey.
    by rewrite lookup_empty in Hkey.
  - apply Forall_app in Hdisks as [Hruns Hi].
    apply (proj1 (Forall_singleton _ _)) in Hi.
    rewrite session_snoc in Hkey. revert key df Hkey. unfold run.
    apply (preserves_script_by_loader
             (fun store => forall key df, store !! key = Some df -> well_formed df)
             (i_disk i) (i_selected i) (i_clicked i)); [|by apply IH].
    intros league w HP key df. rewrite load_league_frame.
    destruct (loaded_frame (i_disk i) league) as [df'|e] eqn:Hframe; [|apply HP].
    cbn [fst session_state].
    destruct (decide (key = session_key league)) as [->|Hne].
    + rewrite lookup_insert_eq. intros [= <-].
      apply loaded_frame_inv in Hframe as (file_path & df0 & _ & Hdisk & ->).
      unfold well_formed. cbn [data index_len].
      repeat constructor; cbn [snd column_length]; try apply repeat_length.
      by eapply Hi.
    + rewrite lookup_insert_ne by done. apply HP.
Qed.

Lemma session_frames_are_well_formed_witness :
  exists df,
    sample_store sample_finals !! session_key "Premier League" = Some df
    /\ well_formed df.
Proof.
  assert (exists df, sample_store sample_finals !! session_key "Premier League"
                     = Some df) as [df Hdf].
  { vm_compute. by eexists. }
  exists df. split; [exact Hdf|].
  apply (session_frames_are_well_formed
           [ {| i_disk := sample_disk sample_finals;
                i_selected := ["Premier League"];
                i_clicked := Some LoadData |} ]) with (key := session_key "Premier League");
    [|exact Hdf].
  repeat constructor. cbn [i_disk]. intros file_path df0. unfold sample_disk.
  destruct (String.eqb _ _); [|done]. intros [= <-]. repeat constructor.
Defined.
